(** * Post scheduling and publishing of swym_social: a shallow embedding

    The development follows [app/models/content.py],
    [app/services/social_publisher.py], [app/scheduler/post_scheduler.py]
    and [app/api/endpoints/posts.py].

    Conventions of the embedding:
    - a Python [str] is a [string]; one cell of the string stands for one
      character of the Python string, so [String.length] is [len] and
      [py_take n] is the slice [[:n]];
    - a [datetime] is an integer instant [Z]; the string produced by
      [.isoformat()] of the instant [t] is the value [VIso t];
    - a Python [dict] with string keys is a [gmap string PyVal];
    - code that can raise runs in the monad [M], a state monad over the
      [World] (rows of table [posts], pending jobs of the scheduler, log of
      HTTP calls made)
      with exceptions; [try_except] is Python's [try/except Exception];
    - what the outside world answers is read from an [Env]: the settings,
      the remote HTTP servers, the file system, the clock, and whether the
      database and the job store accept a write. *)

From Stdlib Require Import ZArith Lia Ascii.
From stdpp Require Import gmap strings list fin_maps pretty.

Local Set Warnings "-register-all".
Local Open Scope Z_scope.

(** ** Python values *)

Module Py.

(** The values that travel through result dictionaries, parsed JSON bodies
  and the JSON column [meta_data]. [VObject cls] is an instance of a
  class that is none of the built-in ones (only its class name matters
  here). *)
Inductive PyVal :=
| VNone
| VBool (b : bool)
| VInt (z : Z)
| VStr (s : string)
| VIso (t : Z)
| VObject (cls : string)
| VList (l : list PyVal)
| VDict (d : gmap string PyVal).

(** Python truthiness, as used by [if x:] and [not x]. An object whose class
  defines neither [__bool__] nor [__len__] is true. *)
Definition truthy (v : PyVal) : bool :=
match v with
| VNone => false
| VBool b => b
| VInt z => negb (z =? 0)
| VStr s => negb (String.eqb s "")
| VIso _ => true
| VObject _ => true
| VList l => match l with [] => false | _ => true end
| VDict d => negb (bool_decide (d = ∅))
end.

(** [d.get(k)]: the value, or [None] when the key is absent. *)
Definition dict_get (d : gmap string PyVal) (k : string) : PyVal :=
default VNone (d !! k).

(** [d.update(e)]: the entries of [e] are written over those of [d]. *)
Definition dict_update (d e : gmap string PyVal) : gmap string PyVal := e ∪ d.

(** An optional string attribute ([Optional[str]]) as a Python value. *)
Definition of_opt_str (o : option string) : PyVal :=
match o with Some s => VStr s | None => VNone end.

(** Truthiness of an [Optional[str]]: set and not empty. *)
Definition configured (o : option string) : bool := truthy (of_opt_str o).

(** What an f-string prints for a value. Lists, dictionaries and foreign
  objects reach an f-string of the publishers below only when a platform
  answers with a nested identifier; they are rendered by their kind. *)
Definition py_str (v : PyVal) : string :=
match v with
| VNone => "None"
| VBool true => "True"
| VBool false => "False"
| VInt z => pretty z
| VStr s => s
| VIso t => "isoformat:" +:+ pretty t
| VObject cls => "<" +:+ cls +:+ " object>"
| VList _ => "[...]"
| VDict _ => "{...}"
end.

(** [s.lower()], on the letters A to Z. *)
Definition ascii_lower (c : ascii) : ascii :=
let n := N_of_ascii c in
if ((65 <=? n) && (n <=? 90))%N then ascii_of_N (n + 32) else c.

Fixpoint py_lower (s : string) : string :=
match s with
| EmptyString => EmptyString
| String c s' => String (ascii_lower c) (py_lower s')
end.

(** The slice [s[:n]]. *)
Fixpoint py_take (n : nat) (s : string) : string :=
match n, s with
| O, _ => EmptyString
| S _, EmptyString => EmptyString
| S n', String c s' => String c (py_take n' s')
end.

End Py.
Import Py.

(** ** Exceptions and the monad of effectful code *)

Inductive Exn :=
| AttributeError (msg : string)
| RequestException (msg : string)
| JSONDecodeError (msg : string)
| SQLAlchemyError (msg : string)
| PendingRollbackError (msg : string)
| JobLookupError (job_id : string)
| JobStoreError (msg : string)
| ValueError (msg : string)
| HTTPException (status_code : Z) (detail : string).

(** [str(e)]. An [HTTPException] prints as its status code and detail, as
    in current Starlette; only the wording of wrapped error details depends
    on it. *)
Definition exn_str (e : Exn) : string :=
  match e with
  | AttributeError msg => msg
  | RequestException msg => msg
  | JSONDecodeError msg => msg
  | SQLAlchemyError msg => msg
  | PendingRollbackError msg => msg
  | JobLookupError job_id => "No job by the id of " +:+ job_id +:+ " was found"
  | JobStoreError msg => msg
  | ValueError msg => msg
  | HTTPException status_code detail => pretty status_code +:+ ": " +:+ detail
  end.

(** ** The data model ([app/models/content.py]) *)

Inductive ContentStatus :=
| DRAFT | APPROVED | SCHEDULED | PUBLISHED | FAILED | REJECTED.

Inductive Platform := LINKEDIN | TWITTER | INSTAGRAM | YOUTUBE.

#[global] Instance ContentStatus_eq_dec : EqDecision ContentStatus.
Proof. solve_decision. Defined.

#[global] Instance Platform_eq_dec : EqDecision Platform.
Proof. solve_decision. Defined.

(** [platform.value] *)
Definition platform_value (p : Platform) : string :=
  match p with
  | LINKEDIN => "linkedin"
  | TWITTER => "twitter"
  | INSTAGRAM => "instagram"
  | YOUTUBE => "youtube"
  end.

(** A row of table [posts]. The columns are those of class [Post]; the
    bookkeeping columns [content_item_id], [created_at] and [updated_at],
    which none of the modelled code reads or assigns, are left out. The JSON
    column is called [meta_data]. *)
Record Post := mkPost {
  id : Z;
  text_content : string;
  image_path : option string;
  status : ContentStatus;
  platform : Platform;
  scheduled_time : option Z;
  published_time : option Z;
  external_id : PyVal;
  external_url : PyVal;
  meta_data : option (gmap string PyVal)
}.

Definition set_text_content (s : string) (p : Post) : Post :=
  mkPost (id p) s (image_path p) (status p) (platform p)
         (scheduled_time p) (published_time p) (external_id p)
         (external_url p) (meta_data p).

Definition set_status (s : ContentStatus) (p : Post) : Post :=
  mkPost (id p) (text_content p) (image_path p) s (platform p)
         (scheduled_time p) (published_time p) (external_id p)
         (external_url p) (meta_data p).

Definition set_scheduled_time (t : option Z) (p : Post) : Post :=
  mkPost (id p) (text_content p) (image_path p) (status p) (platform p)
         t (published_time p) (external_id p) (external_url p) (meta_data p).

Definition set_published_time (t : option Z) (p : Post) : Post :=
  mkPost (id p) (text_content p) (image_path p) (status p) (platform p)
         (scheduled_time p) t (external_id p) (external_url p) (meta_data p).

Definition set_external_id (v : PyVal) (p : Post) : Post :=
  mkPost (id p) (text_content p) (image_path p) (status p) (platform p)
         (scheduled_time p) (published_time p) v (external_url p)
         (meta_data p).

Definition set_external_url (v : PyVal) (p : Post) : Post :=
  mkPost (id p) (text_content p) (image_path p) (status p) (platform p)
         (scheduled_time p) (published_time p) (external_id p) v
         (meta_data p).

(** ** HTTP, as seen through [requests] *)

Inductive Method := GET | POST | DELETE.

(** One call of [requests.post/get/delete]: the keyword arguments the
    publishers pass. *)
Record Request := mkRequest {
  req_method : Method;
  req_url : string;
  req_headers : list (string * string);
  req_auth : option (PyVal * PyVal);
  req_params : list (string * PyVal);
  req_data : list (string * string);
  req_json : option PyVal
}.

(** The parts of a [requests.Response] the publishers read. [resp_headers]
    are the header lines as the server sent them, name and value;
    [resp_json] is the parsed body, [None] when [response.json()] raises. *)
Record Response := mkResponse {
  status_code : Z;
  resp_text : string;
  resp_headers : list (string * string);
  resp_json : option PyVal
}.

(** [response.headers.get(name)]: the headers of a response are looked up
    without regard to case, and a header that was sent several times reads
    as its values joined by a comma and a space. *)
Definition header_get (name : string) (headers : list (string * string))
    : option string :=
  match filter (λ line, py_lower line.1 = py_lower name) headers with
  | [] => None
  | found => Some (String.concat ", " found.*2)
  end.

(** ** Settings ([app/config.py]): the credentials read by the publishers *)

Record Settings := mkSettings {
  LINKEDIN_ACCESS_TOKEN : option string;
  TWITTER_API_KEY : option string;
  TWITTER_API_SECRET : option string;
  TWITTER_ACCESS_TOKEN : option string;
  TWITTER_ACCESS_SECRET : option string;
  INSTAGRAM_CLIENT_ID : option string;
  INSTAGRAM_CLIENT_SECRET : option string;
  INSTAGRAM_ACCESS_TOKEN : option string
}.

(** ** Jobs of the scheduler *)

(** A job added with [trigger='date']: its run date and its arguments
    [[post.id, post.platform]]. *)
Record Job := mkJob {
  run_date : Z;
  job_post_id : Z;
  job_platform : Platform
}.

(** ** The world and the environment *)

Record World := mkWorld {
  db : gmap Z Post;          (* committed rows of table posts, by primary key *)
  jobs : list (string * Job);  (* the scheduler's pending jobs with their ids, oldest first *)
  sent : list Request        (* HTTP calls made so far, oldest first *)
}.

Record Env := mkEnv {
  settings : Settings;
  network : Request → Exn + Response;   (* the remote servers *)
  path_exists : string → bool;          (* os.path.exists *)
  utcnow : Z;                           (* datetime.utcnow() *)
  fromisoformat : string → Exn + Z;     (* datetime.fromisoformat *)
  commit_fails : option Exn;            (* what session.commit() raises, if anything *)
  jobstore_fails : option Exn;          (* what a job store write raises, if anything *)
  expired_read_fails : option Exn       (* what reading post.id raises once the commit
                                           has failed, if anything *)
}.

Definition set_db (d : gmap Z Post) (w : World) : World :=
  mkWorld d (jobs w) (sent w).

Definition set_jobs (j : list (string * Job)) (w : World) : World :=
  mkWorld (db w) j (sent w).

Definition log_request (r : Request) (w : World) : World :=
  mkWorld (db w) (jobs w) (sent w ++ [r]).

(** Computations that read and write the world and may raise. The world
    reached when an exception is raised is kept: a write that happened
    before the exception stays. *)
Definition M (A : Type) : Type := World → (Exn + A) * World.

Definition ret {A} (a : A) : M A := fun w => (inr a, w).

Definition raise {A} (e : Exn) : M A := fun w => (inl e, w).

Definition bind {A B} (m : M A) (k : A → M B) : M B :=
  fun w => match m w with
           | (inr a, w') => k a w'
           | (inl e, w') => (inl e, w')
           end.

(** [try: body except Exception as e: handler e] *)
Definition try_except {A} (body : M A) (handler : Exn → M A) : M A :=
  fun w => match body w with
           | (inr a, w') => (inr a, w')
           | (inl e, w') => handler e w'
           end.

(** Running a computation: its outcome and the world it leaves. *)
Definition outcome {A} (m : M A) (w : World) : Exn + A := fst (m w).
Definition world_after {A} (m : M A) (w : World) : World := snd (m w).

#[global] Instance M_ret : MRet M := @ret.
#[global] Instance M_bind : MBind M := fun A B k m => bind m k.

(** A call of [requests]: the call is logged, then the server answers or the
    call raises. *)
Definition http (env : Env) (r : Request) : M Response :=
  fun w => match network env r with
           | inr resp => (inr resp, log_request r w)
           | inl e => (inl e, log_request r w)
           end.

(** [response.json()] *)
Definition response_json (resp : Response) : M PyVal :=
  match resp_json resp with
  | Some v => ret v
  | None => raise (JSONDecodeError "Expecting value")
  end.

(** [v.get(k, {})] on a parsed body: defined on dictionaries only. *)
Definition get_or_empty (v : PyVal) (k : string) : M PyVal :=
  match v with
  | VDict d => ret (default (VDict ∅) (d !! k))
  | _ => raise (AttributeError "object has no attribute 'get'")
  end.

(** [v.get(k)] *)
Definition get_attr (v : PyVal) (k : string) : M PyVal :=
  match v with
  | VDict d => ret (dict_get d k)
  | _ => raise (AttributeError "object has no attribute 'get'")
  end.

(** [v.get(k, fallback)] *)
Definition get_with_default (v : PyVal) (k : string) (fallback : PyVal)
    : M PyVal :=
  match v with
  | VDict d => ret (default fallback (d !! k))
  | _ => raise (AttributeError "object has no attribute 'get'")
  end.

(** ** The publishers ([app/services/social_publisher.py]) *)

(** [post.image_path and os.path.exists(post.image_path)] *)
Definition image_available (env : Env) (post : Post) : bool :=
  configured (image_path post) &&
  match image_path post with
  | Some path => path_exists env path
  | None => false
  end.

(** The abstract base class [SocialPublisher]. Of its three operations the
    scheduler calls [publish] only. *)
Class SocialPublisher (T : Type) := {
  publish : T → Env → Post → M (gmap string PyVal)
}.

Module LinkedInPublisher.

Record t := mk { access_token : option string }.

(** [__init__()] with no argument: [access_token or settings....] *)
Definition init (s : Settings) : t := mk (LINKEDIN_ACCESS_TOKEN s).

Definition api_url : string := "https://api.linkedin.com/v2".
Definition author_urn : string := "urn:li:person:me".

(** The body [post_data], with the media category chosen by the image
    test. *)
Definition post_data (text : string) (category : string) : PyVal :=
  VDict {[ "author" := VStr author_urn;
           "lifecycleState" := VStr "PUBLISHED";
           "specificContent" := VDict {[
             "com.linkedin.ugc.ShareContent" := VDict {[
               "shareCommentary" := VDict {[ "text" := VStr text ]};
               "shareMediaCategory" := VStr category ]} ]};
           "visibility" := VDict {[
             "com.linkedin.ugc.MemberNetworkVisibility" := VStr "PUBLIC" ]} ]}.

Definition publish_request (self : t) (env : Env) (post : Post) : Request :=
  mkRequest POST (api_url +:+ "/ugcPosts")
    [("Authorization", "Bearer " +:+ py_str (of_opt_str (access_token self)));
     ("Content-Type", "application/json");
     ("X-Restli-Protocol-Version", "2.0.0")]
    None [] []
    (Some (post_data (text_content post)
                     (if image_available env post then "IMAGE" else "NONE"))).

Definition publish (self : t) (env : Env) (post : Post)
  : M (gmap string PyVal) :=
  if negb (configured (access_token self)) then
    mret {[ "success" := VBool false;
            "error" := VStr "LinkedIn access token not configured" ]}
  else
    try_except
      (response ← http env (publish_request self env post);
       if status_code response =? 201 then
         let post_id := of_opt_str (header_get "x-restli-id" (resp_headers response)) in
         mret {[ "success" := VBool true;
                 "post_id" := post_id;
                 "post_url" := VStr ("https://www.linkedin.com/feed/update/"
                                     +:+ py_str post_id);
                 "platform" := VStr "linkedin";
                 "timestamp" := VIso (utcnow env) ]}
       else
         mret {[ "success" := VBool false;
                 "error" := VStr ("LinkedIn API error: "
                                  +:+ pretty (status_code response)
                                  +:+ " - " +:+ resp_text response);
                 "platform" := VStr "linkedin";
                 "timestamp" := VIso (utcnow env) ]})
      (fun e =>
         mret {[ "success" := VBool false;
                 "error" := VStr (exn_str e);
                 "platform" := VStr "linkedin";
                 "timestamp" := VIso (utcnow env) ]}).

Definition delete_request (self : t) (post_id : string) : Request :=
  mkRequest DELETE (api_url +:+ "/ugcPosts/" +:+ post_id)
    [("Authorization", "Bearer " +:+ py_str (of_opt_str (access_token self)));
     ("X-Restli-Protocol-Version", "2.0.0")]
    None [] [] None.

Definition delete (self : t) (env : Env) (post_id : string)
  : M (gmap string PyVal) :=
  if negb (configured (access_token self)) then
    mret {[ "success" := VBool false;
            "error" := VStr "LinkedIn access token not configured" ]}
  else
    try_except
      (response ← http env (delete_request self post_id);
       if status_code response =? 204 then
         mret {[ "success" := VBool true;
                 "platform" := VStr "linkedin";
                 "timestamp" := VIso (utcnow env) ]}
       else
         mret {[ "success" := VBool false;
                 "error" := VStr ("LinkedIn API error: "
                                  +:+ pretty (status_code response)
                                  +:+ " - " +:+ resp_text response);
                 "platform" := VStr "linkedin";
                 "timestamp" := VIso (utcnow env) ]})
      (fun e =>
         mret {[ "success" := VBool false;
                 "error" := VStr (exn_str e);
                 "platform" := VStr "linkedin";
                 "timestamp" := VIso (utcnow env) ]}).

Definition stats_request (self : t) (post_id : string) : Request :=
  mkRequest GET (api_url +:+ "/socialActions/" +:+ post_id)
    [("Authorization", "Bearer " +:+ py_str (of_opt_str (access_token self)));
     ("X-Restli-Protocol-Version", "2.0.0")]
    None [] [] None.

Definition get_post_stats (self : t) (env : Env) (post_id : string)
  : M (gmap string PyVal) :=
  if negb (configured (access_token self)) then
    mret {[ "success" := VBool false;
            "error" := VStr "LinkedIn access token not configured" ]}
  else
    try_except
      (response ← http env (stats_request self post_id);
       if status_code response =? 200 then
         data ← response_json response;
         likes_summary ← get_with_default data "likesSummary" (VDict ∅);
         likes ← get_with_default likes_summary "totalLikes" (VInt 0);
         comments_summary ← get_with_default data "commentsSummary" (VDict ∅);
         comments ← get_with_default comments_summary "totalComments" (VInt 0);
         shares_summary ← get_with_default data "sharesSummary" (VDict ∅);
         shares ← get_with_default shares_summary "totalShares" (VInt 0);
         mret {[ "success" := VBool true;
                 "stats" := VDict {[ "likes" := likes;
                                     "comments" := comments;
                                     "shares" := shares ]};
                 "platform" := VStr "linkedin";
                 "timestamp" := VIso (utcnow env) ]}
       else
         mret {[ "success" := VBool false;
                 "error" := VStr ("LinkedIn API error: "
                                  +:+ pretty (status_code response)
                                  +:+ " - " +:+ resp_text response);
                 "platform" := VStr "linkedin";
                 "timestamp" := VIso (utcnow env) ]})
      (fun e =>
         mret {[ "success" := VBool false;
                 "error" := VStr (exn_str e);
                 "platform" := VStr "linkedin";
                 "timestamp" := VIso (utcnow env) ]}).

End LinkedInPublisher.

#[global] Instance LinkedIn_publisher : SocialPublisher LinkedInPublisher.t :=
  {| publish := LinkedInPublisher.publish |}.

Module TwitterPublisher.

Record t := mk {
  api_key : option string;
  api_secret : option string;
  access_token : option string;
  access_secret : option string
}.

Definition init (s : Settings) : t :=
  mk (TWITTER_API_KEY s) (TWITTER_API_SECRET s)
     (TWITTER_ACCESS_TOKEN s) (TWITTER_ACCESS_SECRET s).

Definition api_url : string := "https://api.twitter.com/2".

(** [all([api_key, api_secret, access_token, access_secret])] *)
Definition credentials_configured (self : t) : bool :=
  configured (api_key self) && configured (api_secret self) &&
  configured (access_token self) && configured (access_secret self).

Definition auth_request (self : t) : Request :=
  mkRequest POST "https://api.twitter.com/oauth2/token" []
    (Some (of_opt_str (api_key self), of_opt_str (api_secret self)))
    [] [("grant_type", "client_credentials")] None.

(** [_get_bearer_token]: the token, or [None]. *)
Definition _get_bearer_token (self : t) (env : Env) : M PyVal :=
  try_except
    (response ← http env (auth_request self);
     if status_code response =? 200 then
       data ← response_json response;
       get_attr data "access_token"
     else mret VNone)
    (fun _ => mret VNone).

(** Twitter has a character limit, so truncate if necessary. *)
Definition tweet_text (text_content : string) : string :=
  if (280 <? String.length text_content)%nat
  then py_take 277 text_content +:+ "..."
  else text_content.

Definition post_data (env : Env) (post : Post) : gmap string PyVal :=
  let post_data := {[ "text" := VStr (tweet_text (text_content post)) ]} in
  if image_available env post
  then <["media" := VDict {[ "media_ids" := VList [VStr "placeholder_media_id"] ]}]> post_data
  else post_data.

Definition publish_request (env : Env) (post : Post) (bearer_token : PyVal)
  : Request :=
  mkRequest POST (api_url +:+ "/tweets")
    [("Authorization", "Bearer " +:+ py_str bearer_token);
     ("Content-Type", "application/json")]
    None [] [] (Some (VDict (post_data env post))).

Definition publish (self : t) (env : Env) (post : Post)
  : M (gmap string PyVal) :=
  if negb (credentials_configured self) then
    mret {[ "success" := VBool false;
            "error" := VStr "Twitter API credentials not configured" ]}
  else
    try_except
      (bearer_token ← _get_bearer_token self env;
       if negb (truthy bearer_token) then
         mret {[ "success" := VBool false;
                 "error" := VStr "Failed to authenticate with Twitter" ]}
       else
         response ← http env (publish_request env post bearer_token);
         if status_code response =? 201 then
           data ← response_json response;
           inner ← get_or_empty data "data";
           tweet_id ← get_attr inner "id";
           mret {[ "success" := VBool true;
                   "post_id" := tweet_id;
                   "post_url" := VStr ("https://twitter.com/user/status/"
                                       +:+ py_str tweet_id);
                   "platform" := VStr "twitter";
                   "timestamp" := VIso (utcnow env) ]}
         else
           mret {[ "success" := VBool false;
                   "error" := VStr ("Twitter API error: "
                                    +:+ pretty (status_code response)
                                    +:+ " - " +:+ resp_text response);
                   "platform" := VStr "twitter";
                   "timestamp" := VIso (utcnow env) ]})
      (fun e =>
         mret {[ "success" := VBool false;
                 "error" := VStr (exn_str e);
                 "platform" := VStr "twitter";
                 "timestamp" := VIso (utcnow env) ]}).

Definition delete_request (post_id : string) (bearer_token : PyVal) : Request :=
  mkRequest DELETE (api_url +:+ "/tweets/" +:+ post_id)
    [("Authorization", "Bearer " +:+ py_str bearer_token);
     ("Content-Type", "application/json")]
    None [] [] None.

Definition delete (self : t) (env : Env) (post_id : string)
  : M (gmap string PyVal) :=
  if negb (credentials_configured self) then
    mret {[ "success" := VBool false;
            "error" := VStr "Twitter API credentials not configured" ]}
  else
    try_except
      (bearer_token ← _get_bearer_token self env;
       if negb (truthy bearer_token) then
         mret {[ "success" := VBool false;
                 "error" := VStr "Failed to authenticate with Twitter" ]}
       else
         response ← http env (delete_request post_id bearer_token);
         if status_code response =? 200 then
           mret {[ "success" := VBool true;
                   "platform" := VStr "twitter";
                   "timestamp" := VIso (utcnow env) ]}
         else
           mret {[ "success" := VBool false;
                   "error" := VStr ("Twitter API error: "
                                    +:+ pretty (status_code response)
                                    +:+ " - " +:+ resp_text response);
                   "platform" := VStr "twitter";
                   "timestamp" := VIso (utcnow env) ]})
      (fun e =>
         mret {[ "success" := VBool false;
                 "error" := VStr (exn_str e);
                 "platform" := VStr "twitter";
                 "timestamp" := VIso (utcnow env) ]}).

Definition stats_request (post_id : string) (bearer_token : PyVal) : Request :=
  mkRequest GET (api_url +:+ "/tweets/" +:+ post_id
                 +:+ "?tweet.fields=public_metrics")
    [("Authorization", "Bearer " +:+ py_str bearer_token);
     ("Content-Type", "application/json")]
    None [] [] None.

Definition get_post_stats (self : t) (env : Env) (post_id : string)
  : M (gmap string PyVal) :=
  if negb (credentials_configured self) then
    mret {[ "success" := VBool false;
            "error" := VStr "Twitter API credentials not configured" ]}
  else
    try_except
      (bearer_token ← _get_bearer_token self env;
       if negb (truthy bearer_token) then
         mret {[ "success" := VBool false;
                 "error" := VStr "Failed to authenticate with Twitter" ]}
       else
         response ← http env (stats_request post_id bearer_token);
         if status_code response =? 200 then
           data ← response_json response;
           inner ← get_with_default data "data" (VDict ∅);
           metrics ← get_with_default inner "public_metrics" (VDict ∅);
           likes ← get_with_default metrics "like_count" (VInt 0);
           retweets ← get_with_default metrics "retweet_count" (VInt 0);
           replies ← get_with_default metrics "reply_count" (VInt 0);
           impressions ← get_with_default metrics "impression_count" (VInt 0);
           mret {[ "success" := VBool true;
                   "stats" := VDict {[ "likes" := likes;
                                       "retweets" := retweets;
                                       "replies" := replies;
                                       "impressions" := impressions ]};
                   "platform" := VStr "twitter";
                   "timestamp" := VIso (utcnow env) ]}
         else
           mret {[ "success" := VBool false;
                   "error" := VStr ("Twitter API error: "
                                    +:+ pretty (status_code response)
                                    +:+ " - " +:+ resp_text response);
                   "platform" := VStr "twitter";
                   "timestamp" := VIso (utcnow env) ]})
      (fun e =>
         mret {[ "success" := VBool false;
                 "error" := VStr (exn_str e);
                 "platform" := VStr "twitter";
                 "timestamp" := VIso (utcnow env) ]}).

End TwitterPublisher.

#[global] Instance Twitter_publisher : SocialPublisher TwitterPublisher.t :=
  {| publish := TwitterPublisher.publish |}.

Module InstagramPublisher.

Record t := mk {
  client_id : option string;
  client_secret : option string;
  access_token : option string
}.

Definition init (s : Settings) : t :=
  mk (INSTAGRAM_CLIENT_ID s) (INSTAGRAM_CLIENT_SECRET s)
     (INSTAGRAM_ACCESS_TOKEN s).

Definition api_url : string := "https://graph.facebook.com/v18.0".

(** [all([client_id, client_secret, access_token])] *)
Definition credentials_configured (self : t) : bool :=
  configured (client_id self) && configured (client_secret self) &&
  configured (access_token self).

Definition publish_request (self : t) (post : Post) : Request :=
  mkRequest POST (api_url +:+ "/me/media_publish") [] None
    [("access_token", of_opt_str (access_token self));
     ("caption", VStr (text_content post));
     ("container_id", VStr "placeholder_container_id")]
    [] None.

Definition publish (self : t) (env : Env) (post : Post)
  : M (gmap string PyVal) :=
  if negb (credentials_configured self) then
    mret {[ "success" := VBool false;
            "error" := VStr "Instagram API credentials not configured" ]}
  else
    try_except
      ((* Instagram requires an image for posts *)
       if negb (image_available env post) then
         mret {[ "success" := VBool false;
                 "error" := VStr "Instagram posts require an image" ]}
       else
         response ← http env (publish_request self post);
         if status_code response =? 200 then
           data ← response_json response;
           post_id ← get_attr data "id";
           mret {[ "success" := VBool true;
                   "post_id" := post_id;
                   "post_url" := VStr ("https://www.instagram.com/p/"
                                       +:+ py_str post_id);
                   "platform" := VStr "instagram";
                   "timestamp" := VIso (utcnow env) ]}
         else
           mret {[ "success" := VBool false;
                   "error" := VStr ("Instagram API error: "
                                    +:+ pretty (status_code response)
                                    +:+ " - " +:+ resp_text response);
                   "platform" := VStr "instagram";
                   "timestamp" := VIso (utcnow env) ]})
      (fun e =>
         mret {[ "success" := VBool false;
                 "error" := VStr (exn_str e);
                 "platform" := VStr "instagram";
                 "timestamp" := VIso (utcnow env) ]}).

Definition delete_request (self : t) (post_id : string) : Request :=
  mkRequest DELETE (api_url +:+ "/" +:+ post_id) [] None
    [("access_token", of_opt_str (access_token self))] [] None.

Definition delete (self : t) (env : Env) (post_id : string)
  : M (gmap string PyVal) :=
  if negb (credentials_configured self) then
    mret {[ "success" := VBool false;
            "error" := VStr "Instagram API credentials not configured" ]}
  else
    try_except
      (response ← http env (delete_request self post_id);
       if status_code response =? 200 then
         mret {[ "success" := VBool true;
                 "platform" := VStr "instagram";
                 "timestamp" := VIso (utcnow env) ]}
       else
         mret {[ "success" := VBool false;
                 "error" := VStr ("Instagram API error: "
                                  +:+ pretty (status_code response)
                                  +:+ " - " +:+ resp_text response);
                 "platform" := VStr "instagram";
                 "timestamp" := VIso (utcnow env) ]})
      (fun e =>
         mret {[ "success" := VBool false;
                 "error" := VStr (exn_str e);
                 "platform" := VStr "instagram";
                 "timestamp" := VIso (utcnow env) ]}).

End InstagramPublisher.

#[global] Instance Instagram_publisher : SocialPublisher InstagramPublisher.t :=
  {| publish := InstagramPublisher.publish |}.

(** A publisher of any of the three classes, as stored in the dictionary
    [self.publishers]. *)
Inductive AnyPublisher :=
| Publisher {T : Type} `{SocialPublisher T} (self : T).

Definition any_publish (p : AnyPublisher) : Env → Post → M (gmap string PyVal) :=
  match p with Publisher self => publish self end.

(** ** The declarative base

    [app/models/database.py], which defines [Base], is not among the
    sources. [scripts/init_db.py] creates the tables with
    [Base.metadata.create_all(bind=engine)]: [metadata] is the class
    attribute of the declarative base that holds the table registry, an
    object of class [MetaData], which class [Post] inherits. Class [Post]
    declares no attribute of that name (its JSON column is [meta_data]), so
    reading [post.metadata] finds the inherited class attribute until an
    instance attribute [metadata] is assigned. *)
Definition Base_metadata : PyVal := VObject "MetaData".

(** A [Post] object held by a session: the mapped columns, and the instance
    attribute [metadata] once assigned. Only mapped columns are written by a
    commit. *)
Record PostObject := mkPostObject {
  columns : Post;
  instance_metadata : option PyVal
}.

(** [post.metadata] *)
Definition getattr_metadata (o : PostObject) : PyVal :=
  default Base_metadata (instance_metadata o).

(** [post.metadata = v] *)
Definition setattr_metadata (v : PyVal) (o : PostObject) : PostObject :=
  mkPostObject (columns o) (Some v).

(** [v.update(e)]: a method of dictionaries. *)
Definition call_update (v : PyVal) (e : gmap string PyVal) : M PyVal :=
  match v with
  | VDict d => mret (VDict (dict_update d e))
  | VObject cls =>
      raise (AttributeError ("'" +:+ cls +:+ "' object has no attribute 'update'"))
  | _ => raise (AttributeError "object has no attribute 'update'")
  end.

(** ** Sessions and the scheduler's jobs *)

(** What a session is bound to: the engine, as the session of a request is,
    or a DBAPI connection, the value of [engine.raw_connection()]. *)
Inductive Bind := BoundToEngine | BoundToRawConnection.

(** [session.query(Post).filter(Post.id == post_id).first()] on the session
    of the request. *)
Definition query_post (post_id : Z) : M (option Post) :=
  fun w => (inr (db w !! post_id), w).

(** [session.add(post); session.commit()] on the session of the request: the
    columns of the object become the committed row, unless the commit
    raises. *)
Definition commit (env : Env) (post : Post) : M unit :=
  fun w => match commit_fails env with
           | Some e => (inl e, w)
           | None => (inr tt, set_db (<[id post := post]> (db w)) w)
           end.

(** What a session raises when it is asked to execute on a bind that is a
    DBAPI connection: a session executes through the engine or connection
    object of SQLAlchemy it is bound to, and a DBAPI connection is neither. *)
Definition not_a_bind : Exn :=
  AttributeError "DBAPI connection has no attribute of an engine".

(** The query on a session with the given bind. *)
Definition session_query_post (bind : Bind) (post_id : Z) : M (option Post) :=
  match bind with
  | BoundToEngine => query_post post_id
  | BoundToRawConnection => raise not_a_bind
  end.

(** [session.add(post); session.commit()] on a session with the given
    bind. *)
Definition session_commit (bind : Bind) (env : Env) (post : Post) : M unit :=
  match bind with
  | BoundToEngine => commit env post
  | BoundToRawConnection => raise not_a_bind
  end.

(** The scheduler of this code is never started: nothing calls [start]. The
    jobs it is given wait in its list of pending jobs, in the order in which
    they were added; [replace_existing] is honoured when a scheduler starts,
    not when a pending job is added, so two pending jobs may carry one id.
    Looking a job up by its id, to change it or to remove it, finds the
    first pending job of that id. A write to the job store proper, which a
    started scheduler performs, is what [jobstore_fails] stands for. *)

(** The first pending job with the given id. *)
Fixpoint find_job (job_id : string) (pending : list (string * Job)) : option Job :=
  match pending with
  | [] => None
  | (k, job) :: rest => if decide (k = job_id) then Some job else find_job job_id rest
  end.

(** The pending jobs after the first one with the given id was given a new
    run date. *)
Fixpoint move_first_job (job_id : string) (new_run_date : Z)
    (pending : list (string * Job)) : list (string * Job) :=
  match pending with
  | [] => []
  | (k, job) :: rest =>
      if decide (k = job_id)
      then (k, mkJob new_run_date (job_post_id job) (job_platform job)) :: rest
      else (k, job) :: move_first_job job_id new_run_date rest
  end.

(** The pending jobs without the first one with the given id. *)
Fixpoint drop_first_job (job_id : string) (pending : list (string * Job))
    : list (string * Job) :=
  match pending with
  | [] => []
  | (k, job) :: rest =>
      if decide (k = job_id) then rest else (k, job) :: drop_first_job job_id rest
  end.

(** All pending jobs with the given id, oldest first. *)
Definition jobs_with_id (job_id : string) (pending : list (string * Job))
    : list Job :=
  (filter (λ entry, entry.1 = job_id) pending).*2.

(** [scheduler.add_job(..., trigger='date', run_date=..., id=job_id,
    replace_existing=True, args=[post_id, platform])] *)
Definition add_job (env : Env) (job_id : string) (run_date : Z)
    (post_id : Z) (platform : Platform) : M unit :=
  fun w => match jobstore_fails env with
           | Some e => (inl e, w)
           | None =>
               (inr tt, set_jobs (jobs w ++ [(job_id, mkJob run_date post_id platform)]) w)
           end.

(** [scheduler.reschedule_job(job_id=..., trigger='date', run_date=...)]:
    the job is looked up and raises [JobLookupError] when there is none. *)
Definition reschedule_job (env : Env) (job_id : string) (new_run_date : Z)
    : M unit :=
  fun w => match jobstore_fails env with
           | Some e => (inl e, w)
           | None =>
               match find_job job_id (jobs w) with
               | None => (inl (JobLookupError job_id), w)
               | Some _ =>
                   (inr tt, set_jobs (move_first_job job_id new_run_date (jobs w)) w)
               end
           end.

(** [scheduler.remove_job(job_id)]: raises [JobLookupError] when there is no
    such job. *)
Definition remove_job (env : Env) (job_id : string) : M unit :=
  fun w => match jobstore_fails env with
           | Some e => (inl e, w)
           | None =>
               match find_job job_id (jobs w) with
               | None => (inl (JobLookupError job_id), w)
               | Some _ => (inr tt, set_jobs (drop_first_job job_id (jobs w)) w)
               end
           end.

(** ** The scheduler ([app/scheduler/post_scheduler.py]) *)

Module PostScheduler.

(** [job_defaults] of [__init__]. *)
Record JobDefaults := mkJobDefaults {
  coalesce : bool;
  max_instances : nat
}.

Definition job_defaults : JobDefaults := mkJobDefaults false 3.

(** [self.publishers], built from the settings; [.get(platform)]. *)
Definition publishers (env : Env) (platform : Platform) : option AnyPublisher :=
  match platform with
  | LINKEDIN => Some (Publisher (LinkedInPublisher.init (settings env)))
  | TWITTER => Some (Publisher (TwitterPublisher.init (settings env)))
  | INSTAGRAM => Some (Publisher (InstagramPublisher.init (settings env)))
  | YOUTUBE => None
  end.

(** [f"post_{post.id}_{post.platform.value}"] *)
Definition job_id (post_id : Z) (platform : Platform) : string :=
  "post_" +:+ pretty post_id +:+ "_" +:+ platform_value platform.

(** The log line of the except clauses of [schedule_post],
    [reschedule_post] and [cancel_post] prints [post.id]. The commit is the
    first statement of their try blocks that can raise: when it has failed,
    the attribute is read from a session whose transaction has failed, and
    that read may raise in turn ([PendingRollbackError] after a commit that
    failed while flushing); the exception then leaves the function. *)
Definition log_error_with_post_id (env : Env) : M unit :=
  match commit_fails env, expired_read_fails env with
  | Some _, Some e => raise e
  | _, _ => mret tt
  end.

(** [schedule_post]: the outcome ([True], [False], or the exception that
    leaves the function), and the caller's [post] after the two
    assignments. *)
Definition schedule_post (env : Env) (post : Post) (publish_time : Z)
  : World → (Exn + bool) * Post * World :=
  let post := set_status SCHEDULED post in
  let post := set_scheduled_time (Some publish_time) post in
  fun w =>
    let '(r, w') :=
      try_except
        (commit env post;;
         add_job env (job_id (id post) (platform post)) publish_time
                 (id post) (platform post);;
         mret true)
        (fun e => log_error_with_post_id env;; mret false) w in
    (r, post, w').

(** [reschedule_post] *)
Definition reschedule_post (env : Env) (post : Post) (new_publish_time : Z)
  : World → (Exn + bool) * Post * World :=
  let post := set_scheduled_time (Some new_publish_time) post in
  fun w =>
    let '(r, w') :=
      try_except
        (commit env post;;
         reschedule_job env (job_id (id post) (platform post)) new_publish_time;;
         mret true)
        (fun e => log_error_with_post_id env;; mret false) w in
    (r, post, w').

(** [cancel_post] *)
Definition cancel_post (env : Env) (post : Post)
  : World → (Exn + bool) * Post * World :=
  let post := set_status DRAFT post in
  let post := set_scheduled_time None post in
  fun w =>
    let '(r, w') :=
      try_except
        (commit env post;;
         remove_job env (job_id (id post) (platform post));;
         mret true)
        (fun e => log_error_with_post_id env;; mret false) w in
    (r, post, w').

(** [publish_post], lines 178-194: the post is fetched in the session of
    the function, its status is checked and the publisher looked up.
    [None] stands for the three [return False]. *)
Definition fetch_and_check (session : Bind) (env : Env) (post_id : Z)
    (platform : Platform) : M (option (Post * AnyPublisher)) :=
  post ← session_query_post session post_id;
  match post with
  | None => mret None
  | Some post =>
      if bool_decide (status post ≠ SCHEDULED) && bool_decide (status post ≠ APPROVED)
      then mret None
      else match publishers env platform with
           | None => mret None
           | Some publisher => mret (Some (post, publisher))
           end
  end.

(** [publish_post], lines 199-240: what is done with the publisher's
    result. *)
Definition record_result (session : Bind) (env : Env) (post : Post)
    (result : gmap string PyVal) : M bool :=
  if truthy (dict_get result "success") then
    let post := set_status PUBLISHED post in
    let post := set_published_time (Some (utcnow env)) post in
    let post := set_external_id (dict_get result "post_id") post in
    let post := set_external_url (dict_get result "post_url") post in
    let obj := mkPostObject post None in
    let metadata := if truthy (getattr_metadata obj)
                    then getattr_metadata obj else VDict ∅ in
    metadata ← call_update metadata {[ "publish_result" := VDict result ]};
    let obj := setattr_metadata metadata obj in
    session_commit session env (columns obj);;
    mret true
  else
    let post := set_status FAILED post in
    let obj := mkPostObject post None in
    let metadata := if truthy (getattr_metadata obj)
                    then getattr_metadata obj else VDict ∅ in
    metadata ← call_update metadata
                 {[ "publish_error" := dict_get result "error";
                    "publish_attempt" := VIso (utcnow env) ]};
    let obj := setattr_metadata metadata obj in
    session_commit session env (columns obj);;
    mret false.

(** [publish_post]. Its session is made of
    [self.db_session.get_bind().engine.raw_connection()] (lines 175-176):
    it is bound to a DBAPI connection. The session is closed in the
    [finally] clause: what was not committed is dropped. *)
Definition publish_post (env : Env) (post_id : Z) (platform : Platform)
  : M bool :=
  let session := BoundToRawConnection in
  try_except
    (checked ← fetch_and_check session env post_id platform;
     match checked with
     | None => mret false
     | Some (post, publisher) =>
         result ← any_publish publisher env post;
         record_result session env post result
     end)
    (fun e => mret false).


(** [text[:100] + "..." if len(text) > 100 else text] *)
Definition content_preview (text : string) : string :=
  if (100 <? String.length text)%nat
  then py_take 100 text +:+ "..."
  else text.




End PostScheduler.

(** ** The HTTP endpoints ([app/api/endpoints/posts.py]) *)

Module Endpoints.

(** [s.replace('Z', '+00:00')] *)
Fixpoint replace_Z (s : string) : string :=
  match s with
  | EmptyString => EmptyString
  | String c s' =>
      if Ascii.eqb c "Z"%char then "+00:00" +:+ replace_Z s'
      else String c (replace_Z s')
  end.

(** [scheduler = PostScheduler(db)]: an endpoint works with a scheduler of
    its own, which holds no job, is not started, and is dropped with its
    pending jobs when the request ends. *)
Definition with_new_scheduler {A} (m : M A) : M A :=
  fun w => let '(r, w') := m (set_jobs [] w) in (r, set_jobs (jobs w) w').

(** [POST /{post_id}/schedule]; [publish_time_str] is
    [data.get("publish_time")]. *)
Definition schedule_post (env : Env) (post_id : Z)
    (publish_time_str : option string) : M (gmap string PyVal) :=
  if negb (configured publish_time_str) then
    raise (HTTPException 400 "publish_time is required")
  else
    post ← query_post post_id;
    match post with
    | None =>
        raise (HTTPException 404 ("Post with ID " +:+ pretty post_id +:+ " not found"))
    | Some post =>
        try_except
          (publish_time ←
             (match fromisoformat env (replace_Z (default "" publish_time_str)) with
              | inr t => mret t
              | inl e => raise e
              end);
           '(success, post) ←
             with_new_scheduler
               (fun w => let '(r, p, w') :=
                           PostScheduler.schedule_post env post publish_time w in
                         (match r with
                          | inr b => inr (b, p)
                          | inl e => inl e
                          end, w'));
           if negb success then
             raise (HTTPException 500 "Failed to schedule post")
           else
             mret {[ "post_id" := VInt (id post);
                     "platform" := VStr (platform_value (platform post));
                     "scheduled_time" :=
                       match scheduled_time post with
                       | Some t => VIso t
                       | None => VNone
                       end;
                     "message" := VStr ("Successfully scheduled post for "
                                        +:+ default "" publish_time_str) ]})
          (fun e =>
             match e with
             | ValueError msg =>
                 raise (HTTPException 400 ("Invalid publish_time format: " +:+ msg))
             | _ =>
                 (* db.rollback(): nothing that was committed is undone *)
                 raise (HTTPException 500 ("Error scheduling post: " +:+ exn_str e))
             end)
    end.

(** [POST /{post_id}/publish] *)
Definition publish_post_now (env : Env) (post_id : Z)
  : M (gmap string PyVal) :=
  post ← query_post post_id;
  match post with
  | None =>
      raise (HTTPException 404 ("Post with ID " +:+ pretty post_id +:+ " not found"))
  | Some post =>
      if bool_decide (status post = PUBLISHED) then
        raise (HTTPException 400 ("Post with ID " +:+ pretty post_id
                                  +:+ " is already published"))
      else
        try_except
          ((* Set status to approved for immediate publishing *)
           let post := set_status APPROVED post in
           commit env post;;
           success ← with_new_scheduler
                       (PostScheduler.publish_post env (id post) (platform post));
           if negb success then
             raise (HTTPException 500 "Failed to publish post")
           else
             (* db.refresh(post) *)
             refreshed ← query_post (id post);
             match refreshed with
             | None => raise (SQLAlchemyError "Could not refresh instance")
             | Some post =>
                 mret {[ "post_id" := VInt (id post);
                         "platform" := VStr (platform_value (platform post));
                         "published_time" :=
                           match published_time post with
                           | Some t => VIso t
                           | None => VNone
                           end;
                         "external_url" := external_url post;
                         "message" := VStr "Successfully published post" ]}
             end)
          (fun e =>
             (* db.rollback(): nothing that was committed is undone *)
             raise (HTTPException 500 ("Error publishing post: " +:+ exn_str e)))
  end.

End Endpoints.

(** The keys of the result dictionaries of the publishers. *)
Definition result_keys : gset string :=
  {[ "success"; "error"; "post_id"; "post_url"; "platform"; "timestamp" ]}.

(** A computation that returns, and leaves rows and jobs as they were: it
    can only add to the log of calls. *)
Definition only_calls {A} (m : M A) : Prop :=
  ∀ w, ∃ a new, m w = (inr a, mkWorld (db w) (jobs w) (sent w ++ new)).


(** ** Scenarios: concrete settings, servers, posts and worlds *)

Module Scenario.

(** A body of [n] characters. *)
Fixpoint body (n : nat) : string :=
  match n with
  | O => EmptyString
  | S n' => String "a" (body n')
  end.

Definition all_configured : Settings :=
  mkSettings (Some "li-token")
             (Some "tw-key") (Some "tw-secret") (Some "tw-token") (Some "tw-token-secret")
             (Some "ig-id") (Some "ig-secret") (Some "ig-token").

Definition no_file (path : string) : bool := false.

Definition no_parse (s : string) : Exn + Z := inl (ValueError "Invalid isoformat string").

(** Remote servers that accept whatever is posted: the token request is
    answered with a token, a LinkedIn share with id [urn:li:share:123],
    a tweet or an Instagram publication with an id. *)
Definition accepting (r : Request) : Exn + Response :=
  if String.eqb (req_url r) "https://api.twitter.com/oauth2/token" then
    inr (mkResponse 200 "" [] (Some (VDict {[ "access_token" := VStr "bearer" ]})))
  else if String.eqb (req_url r) "https://api.linkedin.com/v2/ugcPosts" then
    inr (mkResponse 201 "" [("x-restli-id", "urn:li:share:123")] None)
  else if String.eqb (req_url r) "https://api.twitter.com/2/tweets" then
    inr (mkResponse 201 "" []
           (Some (VDict {[ "data" := VDict {[ "id" := VStr "1001" ]} ]})))
  else
    inr (mkResponse 200 "" [] (Some (VDict {[ "id" := VStr "2002" ]}))).

(** An environment in which every write succeeds, at instant [now]. *)
Definition healthy (now : Z) : Env :=
  mkEnv all_configured accepting no_file now no_parse None None None.

Definition empty_world : World := mkWorld ∅ [] [].

(** A tweet of 300 characters. *)
Definition long_tweet : Post :=
  mkPost 5 (body 300) None APPROVED TWITTER None None VNone VNone None.

(** Post 42, for LinkedIn, scheduled for the instant 3600, with its job. *)
Definition share : Post :=
  mkPost 42 "Quarterly update" None SCHEDULED LINKEDIN (Some 3600) None
         VNone VNone None.

Definition share_scheduled : World :=
  mkWorld {[ 42 := share ]}
          [(PostScheduler.job_id 42 LINKEDIN, mkJob 3600 42 LINKEDIN)] [].

(** Post 7, for Instagram, a draft with no image attached. *)
Definition picture : Post :=
  mkPost 7 "Launch day" None DRAFT INSTAGRAM None None VNone VNone None.

Definition picture_stored : World := mkWorld {[ 7 := picture ]} [] [].





(** The job store cannot be written; the database can. *)
Definition jobstore_down (now : Z) : Env :=
  mkEnv all_configured accepting no_file now no_parse None
        (Some (JobStoreError "job store unreachable")) None.

(** The database cannot be written: the commit fails while flushing, and
    the session is left with a failed transaction. *)
Definition database_down (now : Z) : Env :=
  mkEnv all_configured accepting no_file now no_parse
        (Some (SQLAlchemyError "connection refused")) None
        (Some (PendingRollbackError "This Session's transaction has been rolled back")).

(** Post 3, a draft tweet. *)
Definition draft : Post :=
  mkPost 3 "Teaser" None DRAFT TWITTER None None VNone VNone None.

Definition draft_stored : World := mkWorld {[ 3 := draft ]} [] [].

(** Post 4, approved for LinkedIn and never scheduled: it has no job. *)
Definition approved : Post :=
  mkPost 4 "Case study" None APPROVED LINKEDIN None None VNone VNone None.

Definition approved_stored : World := mkWorld {[ 4 := approved ]} [] [].

(** Post 8, published on LinkedIn at instant 100. *)
Definition published : Post :=
  mkPost 8 "Release notes" None PUBLISHED LINKEDIN None (Some 100)
         (VStr "urn:li:share:8")
         (VStr "https://www.linkedin.com/feed/update/urn:li:share:8") None.

Definition published_stored : World := mkWorld {[ 8 := published ]} [] [].

End Scenario.

(** ** Predicates used in the further properties *)

(** World [w'] differs from [w] at most in the row of [post] and in the
    jobs of its key; no call has been made. *)
Definition touches_only (post : Post) (w w' : World) : Prop :=
  sent w' = sent w ∧
  (∀ n, n ≠ id post → db w' !! n = db w !! n) ∧
  (∀ k, k ≠ PostScheduler.job_id (id post) (platform post) →
        jobs_with_id k (jobs w') = jobs_with_id k (jobs w)).

(** How [schedule_post], [reschedule_post] and [cancel_post] end once their
    commit has failed: with [False], or with the exception that the log line
    of the except clause raises. *)
Definition outcome_after_failed_commit (env : Env) : Exn + bool :=
  match expired_read_fails env with
  | Some e => inl e
  | None => inr false
  end.

(** A result of [publish]: either a success with the platform's id and the
    public URL and no error, or a failure with an error message. *)
Definition publish_result_shape (result : gmap string PyVal) : Prop :=
  (result !! "success" = Some (VBool true) ∧
   is_Some (result !! "post_id") ∧
   (∃ url, result !! "post_url" = Some (VStr url)) ∧
   result !! "error" = None)
  ∨ (result !! "success" = Some (VBool false) ∧
     (∃ msg, result !! "error" = Some (VStr msg)) ∧
     result !! "post_id" = None ∧ result !! "post_url" = None).

(** [body.get(summary, {}).get(field, 0)] when it does not raise: the count
    stored under [field] of the object stored under [summary], and 0 when
    either is absent. *)
Definition summary_count (body : gmap string PyVal) (summary field : string)
    : PyVal :=
  match body !! summary with
  | Some (VDict s) => default (VInt 0) (s !! field)
  | _ => VInt 0
  end.

(** The object under [summary] is absent or is itself an object. *)
Definition summary_usable (body : gmap string PyVal) (summary : string) : Prop :=
  body !! summary = None ∨ ∃ s, body !! summary = Some (VDict s).

(** ** Further sample inputs *)

Module Sample.

(** Post 12, a LinkedIn post with an image path. *)
Definition illustrated : Post :=
  mkPost 12 "New office" (Some "data/images/office.png") APPROVED LINKEDIN
         None None VNone VNone None.

(** A file system that holds every path. *)
Definition every_file (path : string) : bool := true.

(** No credentials at all. *)
Definition nothing_configured : Settings :=
  mkSettings None None None None None None None None.

Definition unconfigured (now : Z) : Env :=
  mkEnv nothing_configured Scenario.accepting Scenario.no_file now
        Scenario.no_parse None None None.

(** Servers that cannot be reached. *)
Definition unreachable (r : Request) : Exn + Response :=
  inl (RequestException "Connection refused").

Definition offline (now : Z) : Env :=
  mkEnv Scenario.all_configured unreachable Scenario.no_file now
        Scenario.no_parse None None None.

(** Times are parsed when they are the text [2026-01-01T00:00:00+00:00],
    which stands for the instant 1000. *)
Definition parse_new_year (s : string) : Exn + Z :=
  if String.eqb s "2026-01-01T00:00:00+00:00" then inr 1000
  else inl (ValueError "Invalid isoformat string").

Definition parsing (now : Z) : Env :=
  mkEnv Scenario.all_configured Scenario.accepting Scenario.no_file now
        parse_new_year None None None.

(** Three stored posts: post 42 scheduled for 3600, post 3 a draft, post 8
    published. *)
Definition mixed : World :=
  mkWorld {[ 42 := Scenario.share; 3 := Scenario.draft; 8 := Scenario.published ]}
          [(PostScheduler.job_id 42 LINKEDIN, mkJob 3600 42 LINKEDIN)] [].

(** LinkedIn accepts a share but sends no [x-restli-id] header. *)
Definition no_header (r : Request) : Exn + Response :=
  inr (mkResponse 201 "" [] None).

Definition headerless (now : Z) : Env :=
  mkEnv Scenario.all_configured no_header Scenario.no_file now
        Scenario.no_parse None None None.

(** LinkedIn accepts a share and names the header in capitals. *)
Definition capital_header (r : Request) : Exn + Response :=
  inr (mkResponse 201 "" [("X-RestLi-Id", "urn:li:share:77")] None).

Definition capitalised (now : Z) : Env :=
  mkEnv Scenario.all_configured capital_header Scenario.no_file now
        Scenario.no_parse None None None.

(** LinkedIn answers a request for statistics with likes only. *)
Definition likes_only (r : Request) : Exn + Response :=
  inr (mkResponse 200 "" []
         (Some (VDict {[ "likesSummary" := VDict {[ "totalLikes" := VInt 5 ]} ]}))).

Definition liked (now : Z) : Env :=
  mkEnv Scenario.all_configured likes_only Scenario.no_file now
        Scenario.no_parse None None None.

(** A deletion answered with status code 200. *)
Definition ok_200 (r : Request) : Exn + Response :=
  inr (mkResponse 200 "OK" [] None).

Definition answering_200 (now : Z) : Env :=
  mkEnv Scenario.all_configured ok_200 Scenario.no_file now
        Scenario.no_parse None None None.

End Sample.

(** * Properties *)

(** ** Strings *)

Section Strings.

Lemma append_cons (c : ascii) (s1 s2 : string) :
  String c s1 +:+ s2 = String c (s1 +:+ s2).
Proof. reflexivity. Qed.

Lemma length_append (s1 s2 : string) :
  String.length (s1 +:+ s2) = (String.length s1 + String.length s2)%nat.
Proof.
  induction s1 as [|c s1 IH]; [reflexivity|].
  rewrite append_cons. simpl. by rewrite IH.
Qed.

Lemma length_py_take (n : nat) (s : string) :
  String.length (py_take n s) = (n `min` String.length s)%nat.
Proof.
  revert s. induction n as [|n IH]; intros [|c s]; simpl; try done.
  by rewrite IH.
Qed.

Lemma py_take_short (n : nat) (s : string) :
  (String.length s ≤ n)%nat → py_take n s = s.
Proof.
  revert s. induction n as [|n IH]; intros [|c s]; simpl; try done; try lia.
  intros Hlen. f_equal. apply IH. lia.
Qed.

Lemma get_py_take (n i : nat) (s : string) :
  (i < n)%nat → String.get i (py_take n s) = String.get i s.
Proof.
  revert i s. induction n as [|n IH]; intros i s Hi; [lia|].
  destruct s as [|c s]; [done|].
  destruct i as [|i]; simpl; [done|]. apply IH. lia.
Qed.

Lemma get_append_l (s1 s2 : string) (i : nat) :
  (i < String.length s1)%nat → String.get i (s1 +:+ s2) = String.get i s1.
Proof. intros Hi. symmetry. by apply String.append_correct1. Qed.

Lemma get_append_r (s1 s2 : string) (i : nat) :
  String.get (String.length s1 + i) (s1 +:+ s2) = String.get i s2.
Proof. rewrite Nat.add_comm. symmetry. apply String.append_correct2. Qed.

End Strings.

(** ** The Twitter publisher *)

Section Twitter.
Import TwitterPublisher.

Lemma tweet_text_long (s : string) :
  (280 < String.length s)%nat → tweet_text s = py_take 277 s +:+ "...".
Proof.
  intros Hlen. unfold tweet_text.
  destruct (Nat.ltb_spec 280 (String.length s)); [done | lia].
Qed.

Lemma tweet_text_short (s : string) :
  (String.length s ≤ 280)%nat → tweet_text s = s.
Proof.
  intros Hlen. unfold tweet_text.
  destruct (Nat.ltb_spec 280 (String.length s)); [lia | done].
Qed.

Lemma tweet_text_length_long (s : string) :
  (280 < String.length s)%nat → String.length (tweet_text s) = 280%nat.
Proof.
  intros Hlen. rewrite tweet_text_long by done.
  rewrite length_append, length_py_take, Nat.min_l by lia. reflexivity.
Qed.

Lemma tweet_text_idempotent (s : string) :
  tweet_text (tweet_text s) = tweet_text s.
Proof.
  destruct (decide (280 < String.length s)%nat) as [Hlong|Hshort].
  - apply tweet_text_short. rewrite tweet_text_length_long; [done | lia].
  - by rewrite !(tweet_text_short s) by lia.
Qed.

Lemma twitter_post_data_text (env : Env) (post : Post) :
  post_data env post !! "text" = Some (VStr (tweet_text (text_content post))).
Proof.
  unfold post_data. destruct (image_available env post).
  - rewrite lookup_insert_ne by done. apply lookup_singleton_eq.
  - apply lookup_singleton_eq.
Qed.

Lemma twitter_post_data_truncated (env : Env) (post : Post) :
  post_data env (set_text_content (tweet_text (text_content post)) post)
  = post_data env post.
Proof.
  unfold post_data. simpl. rewrite tweet_text_idempotent.
  by destruct post.
Qed.

(** The token request always runs to an answer, and logs one call. *)
Lemma _get_bearer_token_runs (self : t) (env : Env) (w : World) :
  ∃ token, _get_bearer_token self env w
           = (inr token, log_request (auth_request self) w).
Proof.
  unfold _get_bearer_token, try_except, mbind, M_bind, bind, http.
  destruct (network env (auth_request self)) as [e|response]; [by eexists|].
  destruct (status_code response =? 200); [|by eexists].
  unfold response_json. destruct (resp_json response) as [data|]; [|by eexists].
  unfold get_attr. destruct data; by eexists.
Qed.

Local Ltac keys_included :=
  apply (bool_decide_unpack _); vm_compute; exact I.

(** [publish] never raises; it makes no call, the token call only, or the
    token call followed by the one call that submits the tweet; its result
    has no key beyond the six of the result dictionaries. *)
Lemma twitter_publish_runs (self : t) (env : Env) (post : Post) (w : World) :
  ∃ result new,
    publish self env post w
    = (inr result, mkWorld (db w) (jobs w) (sent w ++ new)) ∧
    (new = [] ∨ new = [auth_request self] ∨
     ∃ token, new = [auth_request self; publish_request env post token]) ∧
    dom result ⊆ result_keys.
Proof.
  unfold publish.
  destruct (credentials_configured self); simpl.
  2:{ exists {[ "success" := VBool false;
                "error" := VStr "Twitter API credentials not configured" ]}, [].
      rewrite app_nil_r. destruct w. split_and!; [done | by left | ].
      keys_included. }
  destruct (_get_bearer_token_runs self env w) as [token Htoken].
  unfold try_except, mbind, M_bind, bind. rewrite Htoken.
  destruct (truthy token); simpl.
  2:{ eexists _, [auth_request self]. split_and!; [done | by right; left | ].
      keys_included. }
  unfold http.
  assert (∀ (r : Exn + gmap string PyVal),
    (r, log_request (publish_request env post token)
          (log_request (auth_request self) w)) =
    (r, mkWorld (db w) (jobs w)
          (sent w ++ [auth_request self; publish_request env post token]))) as Hlog.
  { intros r. unfold log_request. simpl. by rewrite <- app_assoc. }
  destruct (network env (publish_request env post token)) as [e|response].
  { eexists _, _. split_and!; [apply Hlog | right; right; by eexists | ].
    keys_included. }
  destruct (status_code response =? 201).
  2:{ eexists _, _. split_and!; [apply Hlog | right; right; by eexists | ].
      keys_included. }
  unfold response_json.
  destruct (resp_json response) as [data|]; simpl.
  2:{ eexists _, _. split_and!; [apply Hlog | right; right; by eexists | ].
      keys_included. }
  unfold get_or_empty, get_attr.
  destruct data; simpl;
    try (eexists _, _; split_and!; [apply Hlog | right; right; by eexists | ];
         keys_included).
  destruct (default (VDict ∅) (d !! "data")); simpl;
    (eexists _, _; split_and!; [apply Hlog | right; right; by eexists | ];
         keys_included).
Qed.

Lemma twitter_publish_truncated (self : t) (env : Env) (post : Post) :
  publish self env (set_text_content (tweet_text (text_content post)) post)
  = publish self env post.
Proof.
  unfold publish, publish_request.
  by rewrite twitter_post_data_truncated.
Qed.

End Twitter.

(** C4. Whatever the Twitter publisher is given, [publish] returns a result
    and every call it makes to the tweets endpoint submits the text
    [tweet_text] of the body. For a body of more than 280 characters that
    text has exactly 280 characters: the first 277 of the body, then three
    dots at positions 278 to 280. A body of at most 280 characters is
    submitted as it is. Nothing tells the caller that the text was cut: the
    result has the six keys of every result and no other, and the publisher
    behaves on the post exactly as on the post whose body was cut
    beforehand. *)
Theorem twitter_publish_truncates
    (self : TwitterPublisher.t) (env : Env) (post : Post) (w : World) :
  let text := text_content post in
  let submitted := TwitterPublisher.tweet_text text in
  ∃ result new,
    TwitterPublisher.publish self env post w
    = (inr result, mkWorld (db w) (jobs w) (sent w ++ new)) ∧
    (∀ req, req ∈ new → req_url req = "https://api.twitter.com/2/tweets" →
       ∃ data, req_json req = Some (VDict data) ∧
               data !! "text" = Some (VStr submitted)) ∧
    ((280 < String.length text)%nat →
       String.length submitted = 280%nat ∧
       submitted = py_take 277 text +:+ "..." ∧
       (∀ i, (i < 277)%nat → String.get i submitted = String.get i text) ∧
       String.get 277 submitted = Some "."%char ∧
       String.get 278 submitted = Some "."%char ∧
       String.get 279 submitted = Some "."%char) ∧
    ((String.length text ≤ 280)%nat → submitted = text) ∧
    dom result ⊆ result_keys ∧
    TwitterPublisher.publish self env (set_text_content submitted post) w
    = TwitterPublisher.publish self env post w.
Proof.
  intros text submitted.
  destruct (twitter_publish_runs self env post w)
    as (result & new & Hrun & Hnew & Hkeys).
  exists result, new. split_and!; try done.
  - intros req Hreq Hurl.
    destruct Hnew as [-> | [-> | [token ->]]].
    + by apply elem_of_nil in Hreq.
    + apply list_elem_of_singleton in Hreq as ->. discriminate Hurl.
    + apply elem_of_cons in Hreq as [-> | Hreq]; [discriminate Hurl|].
      apply list_elem_of_singleton in Hreq as ->.
      eexists. split; [reflexivity|]. apply twitter_post_data_text.
  - intros Hlong.
    assert (String.length (py_take 277 text) = 277%nat) as Hlen
      by (rewrite length_py_take; lia).
    subst submitted. rewrite tweet_text_long by done.
    split_and!.
    + rewrite length_append, Hlen. reflexivity.
    + done.
    + intros i Hi. rewrite get_append_l by lia. by apply get_py_take.
    + rewrite <- Hlen at 1. rewrite <- (Nat.add_0_r (String.length _)).
      by rewrite get_append_r.
    + replace 278%nat with (String.length (py_take 277 text) + 1)%nat by lia.
      by rewrite get_append_r.
    + replace 279%nat with (String.length (py_take 277 text) + 2)%nat by lia.
      by rewrite get_append_r.
  - apply tweet_text_short.
  - subst submitted text. by rewrite twitter_publish_truncated.
Qed.

(** The theorem at a tweet of 300 characters, with configured credentials
    and servers that accept the tweet: the call is made, with a text of 280
    characters. *)
Lemma twitter_publish_truncates_witness :
  (280 < String.length (text_content Scenario.long_tweet))%nat ∧
  (∃ req, last (sent (TwitterPublisher.publish
                        (TwitterPublisher.init Scenario.all_configured)
                        (Scenario.healthy 0) Scenario.long_tweet
                        Scenario.empty_world).2) = Some req ∧
          req_url req = "https://api.twitter.com/2/tweets") ∧
  ∃ result new,
    TwitterPublisher.publish (TwitterPublisher.init Scenario.all_configured)
      (Scenario.healthy 0) Scenario.long_tweet Scenario.empty_world
    = (inr result, mkWorld ∅ [] ([] ++ new)) ∧
    (∀ req, req ∈ new → req_url req = "https://api.twitter.com/2/tweets" →
       ∃ data, req_json req = Some (VDict data) ∧
               data !! "text" = Some (VStr (Scenario.body 277 +:+ "..."))).
Proof.
  split; [vm_compute; lia|]. split.
  { eexists. split; [vm_compute; reflexivity | reflexivity]. }
  destruct (twitter_publish_truncates
              (TwitterPublisher.init Scenario.all_configured)
              (Scenario.healthy 0) Scenario.long_tweet Scenario.empty_world)
    as (result & new & Hrun & Hreq & _).
  exists result, new. split; [exact Hrun|].
  intros req Hin Hurl. destruct (Hreq req Hin Hurl) as (data & Hjson & Htext).
  exists data. split; [exact Hjson|]. exact Htext.
Defined.

(** ** What a publisher can touch *)

Lemma only_calls_nil {A} (a : A) (w : World) :
  (inr a, w) = (inr a, mkWorld (db w) (jobs w) (sent w ++ [])) :> (Exn + A) * World.
Proof. rewrite app_nil_r. by destruct w. Qed.

Lemma only_calls_one {A} (a : A) (r : Request) (w : World) :
  (inr a, log_request r w) = (inr a, mkWorld (db w) (jobs w) (sent w ++ [r]))
    :> (Exn + A) * World.
Proof. reflexivity. Qed.

Lemma linkedin_publish_only_calls
    (self : LinkedInPublisher.t) (env : Env) (post : Post) :
  only_calls (LinkedInPublisher.publish self env post).
Proof.
  intros w. unfold LinkedInPublisher.publish.
  destruct (configured (LinkedInPublisher.access_token self)); simpl.
  2:{ eexists _, []. apply only_calls_nil. }
  unfold try_except, mbind, M_bind, bind, http.
  destruct (network env _) as [e|response].
  { eexists _, [_]. apply only_calls_one. }
  destruct (status_code response =? 201); eexists _, [_]; apply only_calls_one.
Qed.

Lemma twitter_publish_only_calls
    (self : TwitterPublisher.t) (env : Env) (post : Post) :
  only_calls (TwitterPublisher.publish self env post).
Proof.
  intros w.
  destruct (twitter_publish_runs self env post w) as (result & new & Hrun & _).
  by exists result, new.
Qed.

Lemma instagram_publish_only_calls
    (self : InstagramPublisher.t) (env : Env) (post : Post) :
  only_calls (InstagramPublisher.publish self env post).
Proof.
  intros w. unfold InstagramPublisher.publish.
  destruct (InstagramPublisher.credentials_configured self); simpl.
  2:{ eexists _, []. apply only_calls_nil. }
  unfold try_except.
  destruct (image_available env post); simpl.
  2:{ eexists _, []. apply only_calls_nil. }
  unfold mbind, M_bind, bind, http.
  destruct (network env _) as [e|response].
  { eexists _, [_]. apply only_calls_one. }
  destruct (status_code response =? 200).
  2:{ eexists _, [_]. apply only_calls_one. }
  unfold response_json. destruct (resp_json response) as [data|]; simpl.
  2:{ eexists _, [_]. apply only_calls_one. }
  unfold get_attr. destruct data; simpl; eexists _, [_]; apply only_calls_one.
Qed.

(** Every publisher the scheduler holds is of one of the three classes. *)
Lemma publishers_only_calls (env : Env) (platform : Platform)
    (publisher : AnyPublisher) (post : Post) :
  PostScheduler.publishers env platform = Some publisher →
  only_calls (any_publish publisher env post).
Proof.
  destruct platform; intros [= <-]; simpl.
  - apply linkedin_publish_only_calls.
  - apply twitter_publish_only_calls.
  - apply instagram_publish_only_calls.
Qed.

(** ** Firing a job: what is left in the database *)


(** The session of [publish_post] is bound to a DBAPI connection: its first
    query raises, the except clause returns [False], and nothing has been
    read, called or written. *)
Lemma publish_post_returns_false (env : Env) (post_id : Z)
    (platform : Platform) (w : World) :
  PostScheduler.publish_post env post_id platform w = (inr false, w).
Proof. reflexivity. Qed.

(** C1. Post 42 is scheduled on LinkedIn for the instant 3600 and its job
    fires then. The platform is ready to accept the post: a call of the
    publisher for it succeeds with id [urn:li:share:123] and the URL
    [https://www.linkedin.com/feed/update/urn:li:share:123]. Yet
    [publish_post] returns [False] without having called the platform, and
    the stored post is what it was: status Scheduled, no external id, no
    external URL, no published time. The claimed final state (Published,
    with id, URL and time, persisted) is not reached. *)
Theorem linkedin_firing_not_persisted :
  let env := Scenario.healthy 3600 in
  let w := Scenario.share_scheduled in
  let fired := PostScheduler.publish_post env 42 LINKEDIN w in
  (∃ result,
     (LinkedInPublisher.publish (LinkedInPublisher.init (settings env)) env
        Scenario.share w).1 = inr result ∧
     result !! "success" = Some (VBool true) ∧
     result !! "post_id" = Some (VStr "urn:li:share:123") ∧
     result !! "post_url"
       = Some (VStr "https://www.linkedin.com/feed/update/urn:li:share:123")) ∧
  fired.1 = inr false ∧
  sent fired.2 = [] ∧
  db fired.2 !! 42 = Some Scenario.share ∧
  status Scenario.share = SCHEDULED ∧
  external_id Scenario.share = VNone ∧
  external_url Scenario.share = VNone ∧
  published_time Scenario.share = None.
Proof.
  split_and!; try reflexivity.
  eexists. split; [reflexivity|]. split_and!; reflexivity.
Qed.

(** C8. Post 7 is an Instagram post with no image. The publisher, with its
    credentials configured, fails fast: its result says that Instagram posts
    require an image and no call is made. But publishing the post now leaves
    it Approved, the status the endpoint gave it before the attempt, not
    Failed, and its metadata holds no error: the firing ends before it has
    asked the publisher anything, and nothing is recorded. *)
Theorem instagram_without_image_not_failed :
  let env := Scenario.healthy 0 in
  let w := Scenario.picture_stored in
  let now := Endpoints.publish_post_now env 7 w in
  InstagramPublisher.publish (InstagramPublisher.init (settings env)) env
    Scenario.picture w
  = (inr {[ "success" := VBool false;
            "error" := VStr "Instagram posts require an image" ]}, w) ∧
  (∃ detail, now.1 = inl (HTTPException 500 detail)) ∧
  sent now.2 = [] ∧
  db now.2 !! 7 = Some (set_status APPROVED Scenario.picture) ∧
  status (set_status APPROVED Scenario.picture) ≠ FAILED ∧
  meta_data (set_status APPROVED Scenario.picture) = None.
Proof. split_and!; try reflexivity; [by eexists | discriminate]. Qed.



(** ** Publishing now *)

(** C5. When the stored post is already Published, the endpoint
    [publish_post_now] answers with an error that says so and the world is
    the one it found: no call on the network, no row and no job changed.
    The scheduler's own [publish_post] refuses such a post in the same way,
    for every platform. *)
Theorem publish_now_on_published_rejected
    (env : Env) (post_id : Z) (post : Post) (w : World) :
  db w !! post_id = Some post →
  status post = PUBLISHED →
  Endpoints.publish_post_now env post_id w
  = (inl (HTTPException 400 ("Post with ID " +:+ pretty post_id
                             +:+ " is already published")), w) ∧
  ∀ platform, PostScheduler.publish_post env post_id platform w = (inr false, w).
Proof.
  intros Hrow Hstatus. split.
  - unfold Endpoints.publish_post_now, mbind, M_bind, bind, query_post.
    rewrite Hrow. simpl. by rewrite bool_decide_eq_true_2.
  - intros platform. apply publish_post_returns_false.
Qed.

Lemma publish_now_on_published_rejected_witness :
  Endpoints.publish_post_now (Scenario.healthy 200) 8 Scenario.published_stored
  = (inl (HTTPException 400 "Post with ID 8 is already published"),
     Scenario.published_stored) ∧
  ∀ platform,
    PostScheduler.publish_post (Scenario.healthy 200) 8 platform
      Scenario.published_stored
    = (inr false, Scenario.published_stored).
Proof.
  apply (publish_now_on_published_rejected (Scenario.healthy 200) 8
           Scenario.published Scenario.published_stored); reflexivity.
Defined.

(** ** Pending jobs *)

Section PendingJobs.

Implicit Types (k : string) (pending : list (string * Job)) (job : Job).

Lemma find_job_app_fresh k pending job :
  find_job k pending = None →
  find_job k (pending ++ [(k, job)]) = Some job.
Proof.
  induction pending as [|[k' job'] rest IH]; simpl.
  - intros _. by rewrite decide_True.
  - destruct (decide (k' = k)); [done | apply IH].
Qed.

Lemma move_first_job_app_fresh k t pending job :
  find_job k pending = None →
  move_first_job k t (pending ++ [(k, job)])
  = pending ++ [(k, mkJob t (job_post_id job) (job_platform job))].
Proof.
  induction pending as [|[k' job'] rest IH]; simpl.
  - intros _. by rewrite decide_True.
  - destruct (decide (k' = k)); [done|]. intros Hnone. by rewrite IH.
Qed.

Lemma drop_first_job_app_fresh k pending job :
  find_job k pending = None →
  drop_first_job k (pending ++ [(k, job)]) = pending.
Proof.
  induction pending as [|[k' job'] rest IH]; simpl.
  - intros _. by rewrite decide_True.
  - destruct (decide (k' = k)); [done|]. intros Hnone. by rewrite IH.
Qed.

Lemma find_job_move_first k t pending job :
  find_job k pending = Some job →
  find_job k (move_first_job k t pending)
  = Some (mkJob t (job_post_id job) (job_platform job)).
Proof.
  induction pending as [|[k' job'] rest IH]; simpl; [done|].
  destruct (decide (k' = k)) as [->|Hne]; simpl.
  - intros [= ->]. by rewrite decide_True.
  - intros Hfind. rewrite decide_False by done. by apply IH.
Qed.

Lemma length_move_first_job k t pending :
  length (move_first_job k t pending) = length pending.
Proof.
  induction pending as [|[k' job'] rest IH]; simpl; [done|].
  destruct (decide (k' = k)); simpl; by rewrite ?IH.
Qed.

Lemma jobs_with_id_cons k k' job pending :
  jobs_with_id k ((k', job) :: pending)
  = (if decide (k' = k) then [job] else []) ++ jobs_with_id k pending.
Proof.
  unfold jobs_with_id. rewrite filter_cons. simpl.
  by destruct (decide (k' = k)).
Qed.

Lemma jobs_with_id_app k pending pending' :
  jobs_with_id k (pending ++ pending')
  = jobs_with_id k pending ++ jobs_with_id k pending'.
Proof. unfold jobs_with_id. by rewrite filter_app, fmap_app. Qed.

(** Changing or removing the first job of one id leaves the jobs of the
    other ids as they were. *)
Lemma jobs_with_id_move_first k k' t pending :
  k' ≠ k → jobs_with_id k' (move_first_job k t pending) = jobs_with_id k' pending.
Proof.
  intros Hne. induction pending as [|[k0 job0] rest IH]; simpl; [done|].
  destruct (decide (k0 = k)) as [->|]; rewrite !jobs_with_id_cons.
  - by rewrite !decide_False by done.
  - by rewrite IH.
Qed.

Lemma jobs_with_id_drop_first k k' pending :
  k' ≠ k → jobs_with_id k' (drop_first_job k pending) = jobs_with_id k' pending.
Proof.
  intros Hne. induction pending as [|[k0 job0] rest IH]; simpl; [done|].
  destruct (decide (k0 = k)) as [->|]; rewrite !jobs_with_id_cons.
  - by rewrite decide_False by done.
  - by rewrite IH.
Qed.

End PendingJobs.

(** ** Scheduling, rescheduling and cancelling *)

Section Transitions.

Variables (env : Env) (post : Post) (w : World).

Let k := PostScheduler.job_id (id post) (platform post).

Lemma schedule_post_unfold (t : Z) :
  PostScheduler.schedule_post env post t w
  = let scheduled := set_scheduled_time (Some t) (set_status SCHEDULED post) in
    match commit_fails env, jobstore_fails env with
    | Some _, _ => (outcome_after_failed_commit env, scheduled, w)
    | None, Some _ =>
        (inr false, scheduled, set_db (<[id post := scheduled]> (db w)) w)
    | None, None =>
        (inr true, scheduled,
         mkWorld (<[id post := scheduled]> (db w))
                 (jobs w ++ [(k, mkJob t (id post) (platform post))]) (sent w))
    end.
Proof.
  unfold PostScheduler.schedule_post, try_except, mbind, M_bind, bind,
    commit, add_job, PostScheduler.log_error_with_post_id,
    outcome_after_failed_commit.
  destruct (commit_fails env), (jobstore_fails env), (expired_read_fails env);
    reflexivity.
Qed.

Lemma reschedule_post_unfold (t : Z) :
  PostScheduler.reschedule_post env post t w
  = let moved := set_scheduled_time (Some t) post in
    match commit_fails env, jobstore_fails env, find_job k (jobs w) with
    | Some _, _, _ => (outcome_after_failed_commit env, moved, w)
    | None, Some _, _ | None, None, None =>
        (inr false, moved, set_db (<[id post := moved]> (db w)) w)
    | None, None, Some _ =>
        (inr true, moved,
         mkWorld (<[id post := moved]> (db w))
                 (move_first_job k t (jobs w)) (sent w))
    end.
Proof.
  unfold PostScheduler.reschedule_post, try_except, mbind, M_bind, bind,
    commit, reschedule_job, PostScheduler.log_error_with_post_id,
    outcome_after_failed_commit.
  destruct (commit_fails env), (jobstore_fails env), (expired_read_fails env);
    try reflexivity;
    simpl; fold k; destruct (find_job k (jobs w)); reflexivity.
Qed.

Lemma cancel_post_unfold :
  PostScheduler.cancel_post env post w
  = let cancelled := set_scheduled_time None (set_status DRAFT post) in
    match commit_fails env, jobstore_fails env, find_job k (jobs w) with
    | Some _, _, _ => (outcome_after_failed_commit env, cancelled, w)
    | None, Some _, _ | None, None, None =>
        (inr false, cancelled, set_db (<[id post := cancelled]> (db w)) w)
    | None, None, Some _ =>
        (inr true, cancelled,
         mkWorld (<[id post := cancelled]> (db w))
                 (drop_first_job k (jobs w)) (sent w))
    end.
Proof.
  unfold PostScheduler.cancel_post, try_except, mbind, M_bind, bind,
    commit, remove_job, PostScheduler.log_error_with_post_id,
    outcome_after_failed_commit.
  destruct (commit_fails env), (jobstore_fails env), (expired_read_fails env);
    try reflexivity;
    simpl; fold k; destruct (find_job k (jobs w)); reflexivity.
Qed.

End Transitions.

Lemma outcome_after_failed_commit_not_true (env : Env) :
  outcome_after_failed_commit env ≠ inr true.
Proof. unfold outcome_after_failed_commit. by destruct (expired_read_fails env). Qed.




(** C2, as stated, fails: with a job store that cannot be written,
    [schedule_post] on the draft post 3 returns [False], yet the stored post
    has gone from Draft to Scheduled and has a scheduled time. *)
Lemma schedule_post_failure_not_atomic :
  let w := Scenario.draft_stored in
  let r := PostScheduler.schedule_post (Scenario.jobstore_down 0) Scenario.draft 500 w in
  r.1.1 = inr false ∧
  (status <$> db w !! 3) = Some DRAFT ∧
  (scheduled_time <$> db w !! 3) = Some None ∧
  (status <$> db r.2 !! 3) = Some SCHEDULED ∧
  (scheduled_time <$> db r.2 !! 3) = Some (Some 500).
Proof. split_and!; reflexivity. Qed.

(** C2, amended. When [schedule_post] returns failure, the job store and
    the log of calls are as before. The stored post is as before only when
    it is the commit that failed. When the commit went through and the job
    store refused the job, the post is stored with status Scheduled and the
    requested scheduled time. *)
Theorem schedule_post_failure
    (env : Env) (post : Post) (t : Z) (w : World) (post' : Post) (w' : World) :
  PostScheduler.schedule_post env post t w = (inr false, post', w') →
  jobs w' = jobs w ∧ sent w' = sent w ∧
  ((∃ e, commit_fails env = Some e) ∧ db w' = db w
   ∨ commit_fails env = None ∧ (∃ e, jobstore_fails env = Some e) ∧
     db w' = <[id post := set_scheduled_time (Some t) (set_status SCHEDULED post)]> (db w)).
Proof.
  rewrite schedule_post_unfold.
  destruct (commit_fails env) as [e|], (jobstore_fails env) as [e'|];
    simpl; intros Heq; simplify_eq; (split; [done|]); (split; [done|]).
  - left. eauto.
  - left. eauto.
  - right. eauto.
Qed.

Lemma schedule_post_failure_witness :
  let w := Scenario.draft_stored in
  let r := PostScheduler.schedule_post (Scenario.jobstore_down 0) Scenario.draft 500 w in
  jobs r.2 = jobs w ∧ sent r.2 = sent w ∧
  ((∃ e, commit_fails (Scenario.jobstore_down 0) = Some e) ∧ db r.2 = db w
   ∨ commit_fails (Scenario.jobstore_down 0) = None ∧
     (∃ e, jobstore_fails (Scenario.jobstore_down 0) = Some e) ∧
     db r.2 = <[3 := set_scheduled_time (Some 500) (set_status SCHEDULED Scenario.draft)]>
                (db w)).
Proof.
  apply (schedule_post_failure (Scenario.jobstore_down 0) Scenario.draft 500
           Scenario.draft_stored
           (set_scheduled_time (Some 500) (set_status SCHEDULED Scenario.draft))).
  reflexivity.
Defined.

(** C6, as stated, fails: [reschedule_post] answers the missing job of post
    4 with [False], the very answer it gives for post 42, whose job is
    pending, when the job store cannot be reached. The caller cannot tell
    the two failures apart. And the failed call for post 4 has stored the
    new scheduled time. *)
Lemma reschedule_post_failures_alike :
  let missing := PostScheduler.reschedule_post (Scenario.healthy 0)
                   Scenario.approved 700 Scenario.approved_stored in
  let refused := PostScheduler.reschedule_post (Scenario.jobstore_down 0)
                   Scenario.share 700 Scenario.share_scheduled in
  find_job (PostScheduler.job_id 4 LINKEDIN) (jobs Scenario.approved_stored) = None ∧
  is_Some (find_job (PostScheduler.job_id 42 LINKEDIN) (jobs Scenario.share_scheduled)) ∧
  missing.1.1 = inr false ∧
  refused.1.1 = inr false ∧
  missing.1.1 = refused.1.1 ∧
  (scheduled_time <$> db Scenario.approved_stored !! 4) = Some None ∧
  (scheduled_time <$> db missing.2 !! 4) = Some (Some 700).
Proof. split_and!; try reflexivity. by eexists. Qed.

(** C6, amended. For a post that has no pending job, [reschedule_post],
    once its commit has gone through, has stored the new scheduled time and
    returns [False], as it does for other failures; the jobs are as before.
    For a post that has a pending job, when neither the commit nor the job
    store fails, it returns [True], the stored post has the new scheduled
    time, and the first pending job of the post's id has the new run date
    and the arguments it had, no job being added or removed and the jobs of
    other ids being untouched. When the commit fails, nothing is stored and
    no job changes, and the call does not return [True]: it returns [False]
    or lets an exception of its except clause escape. *)
Theorem reschedule_post_outcomes
    (env : Env) (post : Post) (t : Z) (w : World) :
  let k := PostScheduler.job_id (id post) (platform post) in
  let moved := set_scheduled_time (Some t) post in
  (find_job k (jobs w) = None →
   commit_fails env = None →
   PostScheduler.reschedule_post env post t w
   = (inr false, moved, mkWorld (<[id post := moved]> (db w)) (jobs w) (sent w))) ∧
  (∀ job, find_job k (jobs w) = Some job →
          commit_fails env = None →
          jobstore_fails env = None →
          ∃ w', PostScheduler.reschedule_post env post t w = (inr true, moved, w') ∧
                db w' !! id post = Some moved ∧
                scheduled_time moved = Some t ∧
                find_job k (jobs w')
                = Some (mkJob t (job_post_id job) (job_platform job)) ∧
                length (jobs w') = length (jobs w) ∧
                (∀ k', k' ≠ k → jobs_with_id k' (jobs w') = jobs_with_id k' (jobs w))) ∧
  (∀ e, commit_fails env = Some e →
        ∃ r, PostScheduler.reschedule_post env post t w = (r, moved, w) ∧
             r ≠ inr true).
Proof.
  intros k moved. split_and!.
  - intros Hnone Hcommit. rewrite reschedule_post_unfold. fold k.
    rewrite Hnone, Hcommit. by destruct (jobstore_fails env).
  - intros job Hjob Hcommit Hstore.
    rewrite reschedule_post_unfold. fold k. rewrite Hjob, Hcommit, Hstore.
    eexists. split_and!; [reflexivity | apply lookup_insert_eq | reflexivity
                          | by apply find_job_move_first
                          | apply length_move_first_job | ].
    intros k' Hk'. simpl. by apply jobs_with_id_move_first.
  - intros e Hcommit. rewrite reschedule_post_unfold, Hcommit.
    eexists. split; [reflexivity | apply outcome_after_failed_commit_not_true].
Qed.

Lemma reschedule_post_outcomes_witness :
  (find_job (PostScheduler.job_id 4 LINKEDIN) (jobs Scenario.approved_stored) = None ∧
   PostScheduler.reschedule_post (Scenario.healthy 0) Scenario.approved 700
     Scenario.approved_stored
   = (inr false, set_scheduled_time (Some 700) Scenario.approved,
      mkWorld (<[4 := set_scheduled_time (Some 700) Scenario.approved]>
                 (db Scenario.approved_stored)) [] [])) ∧
  (find_job (PostScheduler.job_id 42 LINKEDIN) (jobs Scenario.share_scheduled)
   = Some (mkJob 3600 42 LINKEDIN) ∧
   ∃ w', PostScheduler.reschedule_post (Scenario.healthy 0) Scenario.share 7200
           Scenario.share_scheduled
         = (inr true, set_scheduled_time (Some 7200) Scenario.share, w') ∧
         find_job (PostScheduler.job_id 42 LINKEDIN) (jobs w')
         = Some (mkJob 7200 42 LINKEDIN)).
Proof.
  split.
  - split; [reflexivity|].
    exact (proj1 (reschedule_post_outcomes (Scenario.healthy 0)
                    Scenario.approved 700 Scenario.approved_stored)
             eq_refl eq_refl).
  - split; [reflexivity|].
    destruct (proj1 (proj2 (reschedule_post_outcomes (Scenario.healthy 0)
                              Scenario.share 7200 Scenario.share_scheduled))
                (mkJob 3600 42 LINKEDIN) eq_refl eq_refl eq_refl)
      as (w' & Hrun & _ & _ & Hjob & _).
    exists w'. split; [exact Hrun | exact Hjob].
Defined.

(** C7, as stated, fails: post 4 is Approved and was never scheduled;
    cancelling it returns [False], and the stored post has gone from
    Approved to Draft. *)
Lemma cancel_unscheduled_post_mutates :
  let w := Scenario.approved_stored in
  let r := PostScheduler.cancel_post (Scenario.healthy 0) Scenario.approved w in
  find_job (PostScheduler.job_id 4 LINKEDIN) (jobs w) = None ∧
  r.1.1 = inr false ∧
  (status <$> db w !! 4) = Some APPROVED ∧
  (status <$> db r.2 !! 4) = Some DRAFT.
Proof. split_and!; reflexivity. Qed.

(** C7, amended. Cancelling a post that has no pending job does change
    state: once the commit has gone through, the post is stored with status
    Draft and no scheduled time, and only then does the call return [False];
    the jobs and the log of calls are as they were. When the commit fails,
    nothing is stored, and the call does not return [True]: it returns
    [False] or lets an exception of its except clause escape. *)
Theorem cancel_post_without_job (env : Env) (post : Post) (w : World) :
  find_job (PostScheduler.job_id (id post) (platform post)) (jobs w) = None →
  let cancelled := set_scheduled_time None (set_status DRAFT post) in
  (commit_fails env = None →
   PostScheduler.cancel_post env post w
   = (inr false, cancelled,
      mkWorld (<[id post := cancelled]> (db w)) (jobs w) (sent w))) ∧
  (∀ e, commit_fails env = Some e →
        ∃ r, PostScheduler.cancel_post env post w = (r, cancelled, w) ∧
             r ≠ inr true) ∧
  status cancelled = DRAFT ∧ scheduled_time cancelled = None.
Proof.
  intros Hnone cancelled. split_and!; try reflexivity.
  - intros Hcommit. rewrite cancel_post_unfold, Hnone, Hcommit.
    by destruct (jobstore_fails env).
  - intros e Hcommit. rewrite cancel_post_unfold, Hcommit.
    eexists. split; [reflexivity | apply outcome_after_failed_commit_not_true].
Qed.

Lemma cancel_post_without_job_witness :
  PostScheduler.cancel_post (Scenario.healthy 0) Scenario.approved
    Scenario.approved_stored
  = (inr false, set_scheduled_time None (set_status DRAFT Scenario.approved),
     mkWorld (<[4 := set_scheduled_time None (set_status DRAFT Scenario.approved)]>
                (db Scenario.approved_stored)) [] []).
Proof.
  exact (proj1 (cancel_post_without_job (Scenario.healthy 0) Scenario.approved
                  Scenario.approved_stored eq_refl) eq_refl).
Defined.

(** * Further properties of the scheduler, the publishers and the endpoints *)

(** ** Job ids *)

Section JobIds.

Lemma chars_append (s t : string) :
  String.list_ascii_of_string (s +:+ t)
  = String.list_ascii_of_string s ++ String.list_ascii_of_string t.
Proof.
  induction s as [|c s IH]; [reflexivity|].
  rewrite append_cons. simpl. by rewrite IH.
Qed.

Lemma chars_inj (s t : string) :
  String.list_ascii_of_string s = String.list_ascii_of_string t → s = t.
Proof.
  intros Heq.
  rewrite <- (String.string_of_list_ascii_of_string s),
          <- (String.string_of_list_ascii_of_string t).
  by rewrite Heq.
Qed.

(** The characters of a job id: the number, then the name of the
    platform behind an underscore. *)
Lemma job_id_chars (n : Z) (p : Platform) :
  String.list_ascii_of_string (PostScheduler.job_id n p)
  = String.list_ascii_of_string "post_" ++ String.list_ascii_of_string (pretty n)
    ++ String.list_ascii_of_string ("_" +:+ platform_value p).
Proof.
  unfold PostScheduler.job_id. by rewrite !chars_append.
Qed.

End JobIds.

(** X1. The job id determines the post and the platform: two different
    (post id, platform) pairs never get the same job id. *)
Theorem job_id_collision_free (n m : Z) (p q : Platform) :
  (n, p) ≠ (m, q) →
  PostScheduler.job_id n p ≠ PostScheduler.job_id m q.
Proof.
  intros Hne Heq. apply Hne. clear Hne.
  apply (f_equal String.list_ascii_of_string) in Heq.
  rewrite !job_id_chars in Heq.
  apply app_inv_head in Heq.
  destruct p, q;
    try (apply (f_equal last) in Heq; rewrite !last_app in Heq;
         discriminate Heq);
    apply app_inv_tail in Heq; apply chars_inj in Heq;
    apply pretty_Z_inj in Heq; by subst.
Qed.

Lemma job_id_collision_free_witness :
  PostScheduler.job_id 1 TWITTER ≠ PostScheduler.job_id 11 TWITTER ∧
  PostScheduler.job_id 7 LINKEDIN ≠ PostScheduler.job_id 7 INSTAGRAM.
Proof.
  split.
  - apply (job_id_collision_free 1 11 TWITTER TWITTER). by intros [=].
  - apply (job_id_collision_free 7 7 LINKEDIN INSTAGRAM). by intros [=].
Defined.

(** ** Scheduling, rescheduling and cancelling, continued *)

(** X2. Whatever the environment and whether they succeed or fail,
    [schedule_post], [reschedule_post] and [cancel_post] change no row but
    that of the post, no job but those of its key, and make no call on the
    network. *)
Theorem transitions_touch_one_post (env : Env) (post : Post) (t : Z) (w : World) :
  touches_only post w (PostScheduler.schedule_post env post t w).2 ∧
  touches_only post w (PostScheduler.reschedule_post env post t w).2 ∧
  touches_only post w (PostScheduler.cancel_post env post w).2.
Proof.
  rewrite schedule_post_unfold, reschedule_post_unfold, cancel_post_unfold.
  unfold touches_only.
  destruct (commit_fails env), (jobstore_fails env),
    (find_job (PostScheduler.job_id (id post) (platform post)) (jobs w));
    simpl; split_and!; try done; intros x Hx;
    rewrite ?lookup_insert_ne by done;
    rewrite ?jobs_with_id_move_first, ?jobs_with_id_drop_first by done;
    try done;
    rewrite jobs_with_id_app, jobs_with_id_cons, decide_False by done;
    by rewrite app_nil_r.
Qed.

(** X3. Scheduling a post again does not replace its pending job. When
    nothing fails, scheduling for [t1] and then for [t2] stores the post
    with the scheduled time [t2], as scheduling for [t2] at once does, but
    leaves both jobs pending under the post's id, the one for [t1] ahead of
    the one for [t2]. *)
Theorem schedule_post_again_appends
    (env : Env) (post : Post) (t1 t2 : Z) (w : World) :
  commit_fails env = None →
  jobstore_fails env = None →
  let k := PostScheduler.job_id (id post) (platform post) in
  let first := PostScheduler.schedule_post env post t1 w in
  let second := PostScheduler.schedule_post env first.1.2 t2 first.2 in
  second.1 = (PostScheduler.schedule_post env post t2 w).1 ∧
  db second.2 = db (PostScheduler.schedule_post env post t2 w).2 ∧
  jobs second.2 = jobs w ++ [(k, mkJob t1 (id post) (platform post));
                             (k, mkJob t2 (id post) (platform post))].
Proof.
  intros Hcommit Hstore k first second. subst first second.
  rewrite !schedule_post_unfold, Hcommit, Hstore. simpl.
  rewrite insert_insert_eq, <- app_assoc. done.
Qed.

Lemma schedule_post_again_appends_witness :
  let first := PostScheduler.schedule_post (Scenario.healthy 0) Scenario.draft 500
                 Scenario.draft_stored in
  let second := PostScheduler.schedule_post (Scenario.healthy 0) first.1.2 900
                  first.2 in
  second.1.1 = inr true ∧
  (scheduled_time <$> db second.2 !! 3) = Some (Some 900) ∧
  jobs second.2 = [("post_3_twitter", mkJob 500 3 TWITTER);
                   ("post_3_twitter", mkJob 900 3 TWITTER)].
Proof.
  destruct (schedule_post_again_appends (Scenario.healthy 0) Scenario.draft 500 900
              Scenario.draft_stored eq_refl eq_refl) as (Hout & Hdb & Hjobs).
  split_and!.
  - by rewrite Hout.
  - by rewrite Hdb.
  - exact Hjobs.
Defined.

(** X4. Rescheduling a post that has just been scheduled amounts to
    scheduling it for the new time, provided no job of its id was pending
    before: when nothing fails, it returns [True] and leaves the post object
    and the world that scheduling for the new time leaves. *)
Theorem reschedule_after_schedule
    (env : Env) (post : Post) (t1 t2 : Z) (w : World) :
  commit_fails env = None →
  jobstore_fails env = None →
  find_job (PostScheduler.job_id (id post) (platform post)) (jobs w) = None →
  let first := PostScheduler.schedule_post env post t1 w in
  PostScheduler.reschedule_post env first.1.2 t2 first.2
  = PostScheduler.schedule_post env post t2 w ∧
  (PostScheduler.schedule_post env post t2 w).1.1 = inr true.
Proof.
  intros Hcommit Hstore Hfresh first. subst first.
  rewrite reschedule_post_unfold, !schedule_post_unfold, Hcommit, Hstore. simpl.
  rewrite (find_job_app_fresh _ _ _ Hfresh).
  rewrite (move_first_job_app_fresh _ _ _ _ Hfresh). simpl.
  by rewrite insert_insert_eq.
Qed.

Lemma reschedule_after_schedule_witness :
  let first := PostScheduler.schedule_post (Scenario.healthy 0) Scenario.draft 500
                 Scenario.draft_stored in
  PostScheduler.reschedule_post (Scenario.healthy 0) first.1.2 900 first.2
  = PostScheduler.schedule_post (Scenario.healthy 0) Scenario.draft 900
      Scenario.draft_stored ∧
  (PostScheduler.schedule_post (Scenario.healthy 0) Scenario.draft 900
     Scenario.draft_stored).1.1 = inr true.
Proof.
  exact (reschedule_after_schedule (Scenario.healthy 0) Scenario.draft 500 900
           Scenario.draft_stored eq_refl eq_refl eq_refl).
Defined.

(** X5. Cancelling undoes scheduling. For a stored draft that has no
    scheduled time and no job, scheduling it and then cancelling it, with
    nothing failing, returns [True] and gives back the post object and the
    world as they were before the two calls. *)
Theorem cancel_after_schedule_restores
    (env : Env) (post : Post) (t : Z) (w : World) :
  commit_fails env = None →
  jobstore_fails env = None →
  db w !! id post = Some post →
  status post = DRAFT →
  scheduled_time post = None →
  find_job (PostScheduler.job_id (id post) (platform post)) (jobs w) = None →
  let first := PostScheduler.schedule_post env post t w in
  PostScheduler.cancel_post env first.1.2 first.2 = (inr true, post, w).
Proof.
  intros Hcommit Hstore Hrow Hstatus Htime Hjob first. subst first.
  rewrite cancel_post_unfold, schedule_post_unfold, Hcommit, Hstore. simpl.
  rewrite (find_job_app_fresh _ _ _ Hjob).
  rewrite (drop_first_job_app_fresh _ _ _ Hjob). simpl.
  assert (set_scheduled_time None
            (set_status DRAFT
               (set_scheduled_time (Some t) (set_status SCHEDULED post))) = post)
    as ->.
  { destruct post; simpl in *. by subst. }
  rewrite insert_insert_eq.
  rewrite insert_id by done.
  by destruct w.
Qed.

Lemma cancel_after_schedule_restores_witness :
  let first := PostScheduler.schedule_post (Scenario.healthy 0) Scenario.draft 500
                 Scenario.draft_stored in
  first.1.1 = inr true ∧
  PostScheduler.cancel_post (Scenario.healthy 0) first.1.2 first.2
  = (inr true, Scenario.draft, Scenario.draft_stored).
Proof.
  split; [reflexivity|].
  exact (cancel_after_schedule_restores (Scenario.healthy 0) Scenario.draft 500
           Scenario.draft_stored eq_refl eq_refl eq_refl eq_refl eq_refl eq_refl).
Defined.

(** ** Firing, continued *)

(** X6. A firing that finds no row for the post, or a row whose status is
    neither Scheduled nor Approved, or that is asked for the platform
    YouTube, for which the scheduler holds no publisher, does nothing: it
    returns [False], makes no call and changes no row and no job. *)
Theorem publish_post_noop
    (env : Env) (post_id : Z) (platform : Platform) (w : World) :
  db w !! post_id = None
  ∨ (∃ post, db w !! post_id = Some post ∧
             status post ≠ SCHEDULED ∧ status post ≠ APPROVED)
  ∨ platform = YOUTUBE →
  PostScheduler.publish_post env post_id platform w = (inr false, w).
Proof. intros _. apply publish_post_returns_false. Qed.

Lemma publish_post_noop_witness :
  PostScheduler.publish_post (Scenario.healthy 0) 99 LINKEDIN Sample.mixed
  = (inr false, Sample.mixed) ∧
  PostScheduler.publish_post (Scenario.healthy 0) 3 TWITTER Sample.mixed
  = (inr false, Sample.mixed) ∧
  PostScheduler.publish_post (Scenario.healthy 0) 42 YOUTUBE Sample.mixed
  = (inr false, Sample.mixed).
Proof.
  split_and!.
  - apply (publish_post_noop (Scenario.healthy 0) 99 LINKEDIN Sample.mixed).
    by left.
  - apply (publish_post_noop (Scenario.healthy 0) 3 TWITTER Sample.mixed).
    right; left. exists Scenario.draft. by split_and!.
  - apply (publish_post_noop (Scenario.healthy 0) 42 YOUTUBE Sample.mixed).
    by right; right.
Defined.

(** X7. A firing never publishes. [publish_post] runs its query on a
    session bound to a DBAPI connection; the query raises and the except
    clause returns [False]. On every post id, platform and world, for a
    stored post that is Scheduled or Approved as for any other, and whatever
    the platform would answer, it returns [False], makes no call on the
    network and changes no row and no job; and so does any number of firings
    in a row. *)
Theorem publish_post_never_publishes
    (env : Env) (w : World) (firings : list (Z * Platform)) :
  (∀ post_id platform,
     PostScheduler.publish_post env post_id platform w = (inr false, w)) ∧
  foldl (λ w' firing,
           (PostScheduler.publish_post env firing.1 firing.2 w').2) w firings
  = w.
Proof.
  split; [intros; apply publish_post_returns_false|].
  induction firings as [|firing rest IH]; [done|].
  simpl. rewrite ?publish_post_returns_false. exact IH.
Qed.

(** ** The list of scheduled posts *)

Section Listing.
Import PostScheduler.

Lemma content_preview_short (text : string) :
  (String.length text ≤ 100)%nat → content_preview text = text.
Proof.
  intros Hlen. unfold content_preview.
  destruct (Nat.ltb_spec 100 (String.length text)); [lia | done].
Qed.

Lemma content_preview_long (text : string) :
  (100 < String.length text)%nat →
  content_preview text = py_take 100 text +:+ "...".
Proof.
  intros Hlen. unfold content_preview.
  destruct (Nat.ltb_spec 100 (String.length text)); [done | lia].
Qed.

End Listing.


(** X9. The preview of a listed post is its text when the text has at most
    100 characters, and otherwise its first 100 characters followed by three
    dots: a preview never has more than 103 characters. *)
Theorem content_preview_bounded (text : string) :
  (String.length (PostScheduler.content_preview text) ≤ 103)%nat ∧
  ((String.length text ≤ 100)%nat → PostScheduler.content_preview text = text) ∧
  ((100 < String.length text)%nat →
   PostScheduler.content_preview text = py_take 100 text +:+ "..." ∧
   String.length (PostScheduler.content_preview text) = 103%nat ∧
   ∀ i, (i < 100)%nat →
        String.get i (PostScheduler.content_preview text) = String.get i text).
Proof.
  split_and!.
  - destruct (decide (100 < String.length text)%nat).
    + rewrite content_preview_long, length_append, length_py_take by done.
      change (String.length "...") with 3%nat. lia.
    + rewrite content_preview_short by lia. lia.
  - apply content_preview_short.
  - intros Hlong. rewrite content_preview_long by done. split_and!.
    + done.
    + rewrite length_append, length_py_take, Nat.min_l by lia. reflexivity.
    + intros i Hi. rewrite get_append_l by (rewrite length_py_take; lia).
      by apply get_py_take.
Qed.


(** ** The publishers, continued *)

Section Results.

Local Ltac shaped :=
  unfold publish_result_shape;
  first [ left; split_and!; [reflexivity | by eexists | by eexists | reflexivity]
        | right; split_and!; [reflexivity | by eexists | reflexivity | reflexivity] ].

Lemma linkedin_publish_shaped
    (self : LinkedInPublisher.t) (env : Env) (post : Post) (w : World) :
  ∃ result w', LinkedInPublisher.publish self env post w = (inr result, w') ∧
               publish_result_shape result.
Proof.
  unfold LinkedInPublisher.publish.
  destruct (configured (LinkedInPublisher.access_token self)); simpl.
  2:{ eexists _, _. split; [reflexivity | shaped]. }
  unfold try_except, mbind, M_bind, bind, http.
  destruct (network env _) as [e|response].
  { eexists _, _. split; [reflexivity | shaped]. }
  destruct (status_code response =? 201);
    eexists _, _; (split; [reflexivity | shaped]).
Qed.

Lemma twitter_publish_shaped
    (self : TwitterPublisher.t) (env : Env) (post : Post) (w : World) :
  ∃ result w', TwitterPublisher.publish self env post w = (inr result, w') ∧
               publish_result_shape result.
Proof.
  unfold TwitterPublisher.publish.
  destruct (TwitterPublisher.credentials_configured self); simpl.
  2:{ eexists _, _. split; [reflexivity | shaped]. }
  destruct (_get_bearer_token_runs self env w) as [token Htoken].
  unfold try_except, mbind, M_bind, bind. rewrite Htoken.
  destruct (truthy token); simpl.
  2:{ eexists _, _. split; [reflexivity | shaped]. }
  unfold http.
  destruct (network env _) as [e|response].
  { eexists _, _. split; [reflexivity | shaped]. }
  destruct (status_code response =? 201).
  2:{ eexists _, _. split; [reflexivity | shaped]. }
  unfold response_json.
  destruct (resp_json response) as [data|]; simpl.
  2:{ eexists _, _. split; [reflexivity | shaped]. }
  unfold get_or_empty, get_attr.
  destruct data; simpl;
    try (eexists _, _; split; [reflexivity | shaped]).
  destruct (default (VDict ∅) (d !! "data")); simpl;
    eexists _, _; (split; [reflexivity | shaped]).
Qed.

Lemma instagram_publish_shaped
    (self : InstagramPublisher.t) (env : Env) (post : Post) (w : World) :
  ∃ result w', InstagramPublisher.publish self env post w = (inr result, w') ∧
               publish_result_shape result.
Proof.
  unfold InstagramPublisher.publish.
  destruct (InstagramPublisher.credentials_configured self); simpl.
  2:{ eexists _, _. split; [reflexivity | shaped]. }
  unfold try_except.
  destruct (image_available env post); simpl.
  2:{ eexists _, _. split; [reflexivity | shaped]. }
  unfold mbind, M_bind, bind, http.
  destruct (network env _) as [e|response].
  { eexists _, _. split; [reflexivity | shaped]. }
  destruct (status_code response =? 200).
  2:{ eexists _, _. split; [reflexivity | shaped]. }
  unfold response_json. destruct (resp_json response) as [data|]; simpl.
  2:{ eexists _, _. split; [reflexivity | shaped]. }
  unfold get_attr.
  destruct data; simpl; eexists _, _; (split; [reflexivity | shaped]).
Qed.

End Results.

(** X10. Publishing never raises. Whatever the credentials, the post and
    the answers of the network (a refused connection, an unexpected status
    code, a body that is not JSON or not of the expected form), the [publish]
    of each of the three publishers returns a result that is either a
    success with the platform's id and the public URL and no error, or a
    failure with an error message and neither id nor URL. *)
Theorem publish_always_answers (env : Env) (post : Post) (w : World) :
  (∀ self : LinkedInPublisher.t,
     ∃ result w', publish self env post w = (inr result, w') ∧
                  publish_result_shape result) ∧
  (∀ self : TwitterPublisher.t,
     ∃ result w', publish self env post w = (inr result, w') ∧
                  publish_result_shape result) ∧
  (∀ self : InstagramPublisher.t,
     ∃ result w', publish self env post w = (inr result, w') ∧
                  publish_result_shape result).
Proof.
  split_and!; intros self.
  - apply linkedin_publish_shaped.
  - apply twitter_publish_shaped.
  - apply instagram_publish_shaped.
Qed.

(** X11. Missing credentials stop every operation before the network. A
    LinkedIn publisher without access token, a Twitter publisher that lacks
    one of its four credentials and an Instagram publisher that lacks one of
    its three answer [publish], [delete] and [get_post_stats] with a failure
    that names the missing configuration, and make no call. (An empty string
    counts as missing.) *)
Theorem unconfigured_publishers_make_no_call
    (env : Env) (post : Post) (post_id : string) (w : World) :
  (∀ self : LinkedInPublisher.t,
     configured (LinkedInPublisher.access_token self) = false →
     let refusal := {[ "success" := VBool false;
                       "error" := VStr "LinkedIn access token not configured" ]} in
     LinkedInPublisher.publish self env post w = (inr refusal, w) ∧
     LinkedInPublisher.delete self env post_id w = (inr refusal, w) ∧
     LinkedInPublisher.get_post_stats self env post_id w = (inr refusal, w)) ∧
  (∀ self : TwitterPublisher.t,
     configured (TwitterPublisher.api_key self) = false
     ∨ configured (TwitterPublisher.api_secret self) = false
     ∨ configured (TwitterPublisher.access_token self) = false
     ∨ configured (TwitterPublisher.access_secret self) = false →
     let refusal := {[ "success" := VBool false;
                       "error" := VStr "Twitter API credentials not configured" ]} in
     TwitterPublisher.publish self env post w = (inr refusal, w) ∧
     TwitterPublisher.delete self env post_id w = (inr refusal, w) ∧
     TwitterPublisher.get_post_stats self env post_id w = (inr refusal, w)) ∧
  (∀ self : InstagramPublisher.t,
     configured (InstagramPublisher.client_id self) = false
     ∨ configured (InstagramPublisher.client_secret self) = false
     ∨ configured (InstagramPublisher.access_token self) = false →
     let refusal := {[ "success" := VBool false;
                       "error" := VStr "Instagram API credentials not configured" ]} in
     InstagramPublisher.publish self env post w = (inr refusal, w) ∧
     InstagramPublisher.delete self env post_id w = (inr refusal, w)).
Proof.
  split_and!.
  - intros self Hmissing refusal.
    unfold LinkedInPublisher.publish, LinkedInPublisher.delete,
      LinkedInPublisher.get_post_stats.
    by rewrite Hmissing.
  - intros self Hmissing refusal.
    assert (TwitterPublisher.credentials_configured self = false) as Hcred.
    { unfold TwitterPublisher.credentials_configured.
      destruct Hmissing as [-> | [-> | [-> | ->]]];
        rewrite ?andb_false_r; reflexivity. }
    unfold TwitterPublisher.publish, TwitterPublisher.delete,
      TwitterPublisher.get_post_stats.
    by rewrite Hcred.
  - intros self Hmissing refusal.
    assert (InstagramPublisher.credentials_configured self = false) as Hcred.
    { unfold InstagramPublisher.credentials_configured.
      destruct Hmissing as [-> | [-> | ->]];
        rewrite ?andb_false_r; reflexivity. }
    unfold InstagramPublisher.publish, InstagramPublisher.delete.
    by rewrite Hcred.
Qed.

Lemma unconfigured_publishers_make_no_call_witness :
  configured (Some "") = false ∧
  LinkedInPublisher.publish (LinkedInPublisher.mk (Some "")) (Scenario.healthy 0)
    Scenario.share Scenario.share_scheduled
  = (inr {[ "success" := VBool false;
            "error" := VStr "LinkedIn access token not configured" ]},
     Scenario.share_scheduled) ∧
  TwitterPublisher.delete (TwitterPublisher.mk (Some "k") (Some "s") None (Some "t"))
    (Scenario.healthy 0) "1001" Scenario.empty_world
  = (inr {[ "success" := VBool false;
            "error" := VStr "Twitter API credentials not configured" ]},
     Scenario.empty_world).
Proof.
  split; [reflexivity|]. split.
  - apply (proj1 (unconfigured_publishers_make_no_call (Scenario.healthy 0)
                    Scenario.share "" Scenario.share_scheduled)
             (LinkedInPublisher.mk (Some "")) eq_refl).
  - apply (proj1 (proj2 (unconfigured_publishers_make_no_call (Scenario.healthy 0)
                    Scenario.share "1001" Scenario.empty_world))
             (TwitterPublisher.mk (Some "k") (Some "s") None (Some "t"))).
    right; right; left. reflexivity.
Defined.

(** X12. With an access token, the LinkedIn [publish] makes exactly one
    call, the POST to [/ugcPosts], and succeeds exactly when the answer has
    status code 201. The id of a success is the header [x-restli-id] of the
    answer, in whatever case the server spelled its name, and the URL is
    [https://www.linkedin.com/feed/update/] followed by that id; when the
    header is absent the id is [None] and the URL ends in the text [None].
    Any other status code, 200 included, gives a failure whose error quotes
    the code and the body of the answer. *)
Theorem linkedin_publish_outcome
    (self : LinkedInPublisher.t) (env : Env) (post : Post) (w : World)
    (response : Response) :
  configured (LinkedInPublisher.access_token self) = true →
  network env (LinkedInPublisher.publish_request self env post) = inr response →
  let post_id := of_opt_str (header_get "x-restli-id" (resp_headers response)) in
  ∃ result,
    LinkedInPublisher.publish self env post w
    = (inr result, log_request (LinkedInPublisher.publish_request self env post) w) ∧
    (status_code response = 201 →
       result !! "success" = Some (VBool true) ∧
       result !! "post_id" = Some post_id ∧
       result !! "post_url"
       = Some (VStr ("https://www.linkedin.com/feed/update/" +:+ py_str post_id))) ∧
    (status_code response ≠ 201 →
       result !! "success" = Some (VBool false) ∧
       result !! "error"
       = Some (VStr ("LinkedIn API error: " +:+ pretty (status_code response)
                     +:+ " - " +:+ resp_text response))).
Proof.
  intros Hcred Hnet post_id.
  unfold LinkedInPublisher.publish. rewrite Hcred. simpl.
  unfold try_except, mbind, M_bind, bind, http. rewrite Hnet.
  destruct (Z.eqb_spec (status_code response) 201) as [Hcode|Hcode];
    eexists; (split; [reflexivity|]); split; intros Hc; try done;
    split_and!; reflexivity.
Qed.

Lemma linkedin_publish_outcome_witness :
  (∃ result,
     LinkedInPublisher.publish (LinkedInPublisher.init Scenario.all_configured)
       (Sample.headerless 0) Scenario.share Scenario.empty_world
     = (inr result,
        log_request (LinkedInPublisher.publish_request
                       (LinkedInPublisher.init Scenario.all_configured)
                       (Sample.headerless 0) Scenario.share)
                    Scenario.empty_world) ∧
     result !! "success" = Some (VBool true) ∧
     result !! "post_id" = Some VNone ∧
     result !! "post_url"
     = Some (VStr "https://www.linkedin.com/feed/update/None")) ∧
  (∃ result,
     (LinkedInPublisher.publish (LinkedInPublisher.init Scenario.all_configured)
        (Sample.capitalised 0) Scenario.share Scenario.empty_world).1 = inr result ∧
     result !! "post_id" = Some (VStr "urn:li:share:77") ∧
     result !! "post_url"
     = Some (VStr "https://www.linkedin.com/feed/update/urn:li:share:77")).
Proof.
  split.
  - destruct (linkedin_publish_outcome
                (LinkedInPublisher.init Scenario.all_configured)
                (Sample.headerless 0) Scenario.share Scenario.empty_world
                (mkResponse 201 "" [] None) eq_refl eq_refl)
      as (result & Hrun & Hok & _).
    exists result. split; [exact Hrun|]. exact (Hok eq_refl).
  - destruct (linkedin_publish_outcome
                (LinkedInPublisher.init Scenario.all_configured)
                (Sample.capitalised 0) Scenario.share Scenario.empty_world
                (mkResponse 201 "" [("X-RestLi-Id", "urn:li:share:77")] None)
                eq_refl eq_refl)
      as (result & Hrun & Hok & _).
    exists result. split; [by rewrite Hrun|].
    destruct (Hok eq_refl) as (_ & Hid & Hurl). by split.
Defined.

(** X13. An Instagram post needs an image that exists. With the three
    credentials configured, [publish] of a post whose image path is absent,
    empty, or names a file that does not exist returns the failure
    [Instagram posts require an image] and makes no call. *)
Theorem instagram_requires_image
    (self : InstagramPublisher.t) (env : Env) (post : Post) (w : World) :
  InstagramPublisher.credentials_configured self = true →
  image_path post = None ∨ image_path post = Some ""
  ∨ (∃ path, image_path post = Some path ∧ path_exists env path = false) →
  InstagramPublisher.publish self env post w
  = (inr {[ "success" := VBool false;
            "error" := VStr "Instagram posts require an image" ]}, w).
Proof.
  intros Hcred Himage.
  assert (image_available env post = false) as Hno.
  { unfold image_available.
    destruct Himage as [-> | [-> | (path & -> & Hpath)]]; try reflexivity.
    rewrite Hpath. apply andb_false_r. }
  unfold InstagramPublisher.publish. rewrite Hcred. simpl.
  unfold try_except. by rewrite Hno.
Qed.

Lemma instagram_requires_image_witness :
  InstagramPublisher.publish (InstagramPublisher.init Scenario.all_configured)
    (Scenario.healthy 0) (set_status APPROVED Scenario.picture) Scenario.picture_stored
  = (inr {[ "success" := VBool false;
            "error" := VStr "Instagram posts require an image" ]},
     Scenario.picture_stored).
Proof.
  apply (instagram_requires_image (InstagramPublisher.init Scenario.all_configured)
           (Scenario.healthy 0) (set_status APPROVED Scenario.picture)
           Scenario.picture_stored eq_refl).
  by left.
Defined.

(** X14. Without a bearer token the Twitter publisher stops after the token
    request. When its credentials are configured and the token request is
    refused (the call raises, or the answer has a status code other than
    200), [publish], [delete] and [get_post_stats] return the failure
    [Failed to authenticate with Twitter], and the token request is the only
    call they have made: no tweet is submitted, deleted or read. *)
Theorem twitter_stops_without_token
    (self : TwitterPublisher.t) (env : Env) (post : Post) (post_id : string)
    (w : World) :
  TwitterPublisher.credentials_configured self = true →
  (∀ response, network env (TwitterPublisher.auth_request self) = inr response →
               status_code response ≠ 200) →
  let refusal := {[ "success" := VBool false;
                    "error" := VStr "Failed to authenticate with Twitter" ]} in
  let w' := log_request (TwitterPublisher.auth_request self) w in
  TwitterPublisher.publish self env post w = (inr refusal, w') ∧
  TwitterPublisher.delete self env post_id w = (inr refusal, w') ∧
  TwitterPublisher.get_post_stats self env post_id w = (inr refusal, w').
Proof.
  intros Hcred Hrefused refusal w'.
  assert (TwitterPublisher._get_bearer_token self env w = (inr VNone, w'))
    as Htoken.
  { unfold TwitterPublisher._get_bearer_token, try_except, mbind, M_bind,
      bind, http.
    destruct (network env (TwitterPublisher.auth_request self))
      as [e|response] eqn:Hnet; [done|].
    specialize (Hrefused response eq_refl).
    by destruct (Z.eqb_spec (status_code response) 200). }
  unfold TwitterPublisher.publish, TwitterPublisher.delete,
    TwitterPublisher.get_post_stats.
  rewrite Hcred. simpl.
  unfold try_except, mbind, M_bind, bind. by rewrite Htoken.
Qed.

Lemma twitter_stops_without_token_witness :
  TwitterPublisher.publish (TwitterPublisher.init Scenario.all_configured)
    (Sample.offline 0) Scenario.long_tweet Scenario.empty_world
  = (inr {[ "success" := VBool false;
            "error" := VStr "Failed to authenticate with Twitter" ]},
     log_request (TwitterPublisher.auth_request
                    (TwitterPublisher.init Scenario.all_configured))
                 Scenario.empty_world).
Proof.
  apply (twitter_stops_without_token
           (TwitterPublisher.init Scenario.all_configured) (Sample.offline 0)
           Scenario.long_tweet "1001" Scenario.empty_world eq_refl).
  intros response [=].
Defined.

(** X15. Deleting succeeds on one status code per platform. With
    credentials configured, [delete] makes one DELETE call for the given id
    (after the token request, for Twitter) and its result says success
    exactly when the answer has status code 204 for LinkedIn, 200 for
    Twitter and 200 for Instagram: a 200 from LinkedIn is a failure. *)
Theorem delete_success_codes (env : Env) (post_id : string) (w : World) :
  (∀ (self : LinkedInPublisher.t) response,
     configured (LinkedInPublisher.access_token self) = true →
     network env (LinkedInPublisher.delete_request self post_id) = inr response →
     ∃ result,
       LinkedInPublisher.delete self env post_id w
       = (inr result, log_request (LinkedInPublisher.delete_request self post_id) w) ∧
       result !! "success" = Some (VBool (status_code response =? 204))) ∧
  (∀ (self : TwitterPublisher.t) token w1 response,
     TwitterPublisher.credentials_configured self = true →
     TwitterPublisher._get_bearer_token self env w = (inr token, w1) →
     truthy token = true →
     network env (TwitterPublisher.delete_request post_id token) = inr response →
     ∃ result,
       TwitterPublisher.delete self env post_id w
       = (inr result, log_request (TwitterPublisher.delete_request post_id token) w1) ∧
       result !! "success" = Some (VBool (status_code response =? 200))) ∧
  (∀ (self : InstagramPublisher.t) response,
     InstagramPublisher.credentials_configured self = true →
     network env (InstagramPublisher.delete_request self post_id) = inr response →
     ∃ result,
       InstagramPublisher.delete self env post_id w
       = (inr result, log_request (InstagramPublisher.delete_request self post_id) w) ∧
       result !! "success" = Some (VBool (status_code response =? 200))).
Proof.
  split_and!.
  - intros self response Hcred Hnet.
    unfold LinkedInPublisher.delete. rewrite Hcred. simpl.
    unfold try_except, mbind, M_bind, bind, http. rewrite Hnet.
    destruct (status_code response =? 204); eexists; split; reflexivity.
  - intros self token w1 response Hcred Htoken Htruthy Hnet.
    unfold TwitterPublisher.delete. rewrite Hcred. simpl.
    unfold try_except, mbind, M_bind, bind. rewrite Htoken, Htruthy. simpl.
    unfold http. rewrite Hnet.
    destruct (status_code response =? 200); eexists; split; reflexivity.
  - intros self response Hcred Hnet.
    unfold InstagramPublisher.delete. rewrite Hcred. simpl.
    unfold try_except, mbind, M_bind, bind, http. rewrite Hnet.
    destruct (status_code response =? 200); eexists; split; reflexivity.
Qed.

Lemma delete_success_codes_witness :
  (∃ result,
     (LinkedInPublisher.delete (LinkedInPublisher.init Scenario.all_configured)
        (Sample.answering_200 0) "urn:li:share:8" Scenario.empty_world).1
     = inr result ∧
     result !! "success" = Some (VBool false)) ∧
  (∃ result,
     (InstagramPublisher.delete (InstagramPublisher.init Scenario.all_configured)
        (Sample.answering_200 0) "2002" Scenario.empty_world).1
     = inr result ∧
     result !! "success" = Some (VBool true)).
Proof.
  split.
  - destruct (proj1 (delete_success_codes (Sample.answering_200 0)
                       "urn:li:share:8" Scenario.empty_world)
                (LinkedInPublisher.init Scenario.all_configured)
                (mkResponse 200 "OK" [] None) eq_refl eq_refl)
      as (result & Hrun & Hok).
    exists result. split; [by rewrite Hrun | exact Hok].
  - destruct (proj2 (proj2 (delete_success_codes (Sample.answering_200 0)
                              "2002" Scenario.empty_world))
                (InstagramPublisher.init Scenario.all_configured)
                (mkResponse 200 "OK" [] None) eq_refl eq_refl)
      as (result & Hrun & Hok).
    exists result. split; [by rewrite Hrun | exact Hok].
Defined.

(** One outcome of the statistics request, once the three summaries are
    known. *)
Local Ltac stats_leaf :=
  eexists; split; [reflexivity|]; split;
  [ intros Hl Hc Hs;
    first [ split; reflexivity
          | exfalso;
            destruct Hl as [Hl|[? Hl]], Hc as [Hc|[? Hc]], Hs as [Hs|[? Hs]];
            done ]
  | intros (v & [= <-] & Hv); first [ reflexivity | exfalso; by eapply Hv ] ].

(** X16. LinkedIn statistics default to zero. With an access token and an
    answer of status code 200 whose body is an object, [get_post_stats]
    makes the one GET call; when each of the three summaries is absent or an
    object, it succeeds with the statistics [likes], [comments] and
    [shares], each the total found in its summary and 0 when the summary or
    the total is absent; when the likes summary is present and is not an
    object, the result is a failure. *)
Theorem linkedin_stats_default_to_zero
    (self : LinkedInPublisher.t) (env : Env) (post_id : string) (w : World)
    (response : Response) (body : gmap string PyVal) :
  configured (LinkedInPublisher.access_token self) = true →
  network env (LinkedInPublisher.stats_request self post_id) = inr response →
  status_code response = 200 →
  resp_json response = Some (VDict body) →
  ∃ result,
    LinkedInPublisher.get_post_stats self env post_id w
    = (inr result, log_request (LinkedInPublisher.stats_request self post_id) w) ∧
    (summary_usable body "likesSummary" →
     summary_usable body "commentsSummary" →
     summary_usable body "sharesSummary" →
     result !! "success" = Some (VBool true) ∧
     result !! "stats"
     = Some (VDict {[ "likes" := summary_count body "likesSummary" "totalLikes";
                      "comments" := summary_count body "commentsSummary" "totalComments";
                      "shares" := summary_count body "sharesSummary" "totalShares" ]})) ∧
    ((∃ v, body !! "likesSummary" = Some v ∧ ∀ s, v ≠ VDict s) →
     result !! "success" = Some (VBool false)).
Proof.
  intros Hcred Hnet Hcode Hjson.
  unfold LinkedInPublisher.get_post_stats. rewrite Hcred. simpl.
  unfold try_except, mbind, M_bind, bind, http. rewrite Hnet, Hcode. simpl.
  unfold response_json. rewrite Hjson. simpl.
  unfold summary_usable, summary_count.
  destruct (body !! "likesSummary") as [[| | | | | | |likes]|];
    simpl; [stats_leaf .. | | ];
    (destruct (body !! "commentsSummary") as [[| | | | | | |comments]|];
     simpl; [stats_leaf .. | | ]);
    (destruct (body !! "sharesSummary") as [[| | | | | | |shares]|];
     simpl; [stats_leaf .. | | ]);
    stats_leaf.
Qed.

Lemma linkedin_stats_default_to_zero_witness :
  ∃ result,
    (LinkedInPublisher.get_post_stats
       (LinkedInPublisher.init Scenario.all_configured) (Sample.liked 0)
       "urn:li:share:8" Scenario.empty_world).1 = inr result ∧
    result !! "stats"
    = Some (VDict {[ "likes" := VInt 5; "comments" := VInt 0; "shares" := VInt 0 ]}).
Proof.
  destruct (linkedin_stats_default_to_zero
              (LinkedInPublisher.init Scenario.all_configured) (Sample.liked 0)
              "urn:li:share:8" Scenario.empty_world
              (mkResponse 200 "" []
                 (Some (VDict {[ "likesSummary" := VDict {[ "totalLikes" := VInt 5 ]} ]})))
              {[ "likesSummary" := VDict {[ "totalLikes" := VInt 5 ]} ]}
              eq_refl eq_refl eq_refl eq_refl)
    as (result & Hrun & Hok & _).
  exists result. split; [by rewrite Hrun|].
  apply Hok.
  - right. by eexists.
  - by left.
  - by left.
Defined.

(** ** The endpoints, continued *)

(** X17. The schedule endpoint rejects a bad request before it writes
    anything. A request without [publish_time] (absent or empty) is answered
    with 400, even for a post that does not exist; a request for a post that
    does not exist with 404; a [publish_time] that cannot be parsed with
    400. In the three cases no row, no job and no call is made or
    changed. *)
Theorem schedule_endpoint_rejects_before_writing
    (env : Env) (post_id : Z) (w : World) :
  (∀ publish_time_str,
     configured publish_time_str = false →
     Endpoints.schedule_post env post_id publish_time_str w
     = (inl (HTTPException 400 "publish_time is required"), w)) ∧
  (∀ publish_time_str,
     configured publish_time_str = true →
     db w !! post_id = None →
     Endpoints.schedule_post env post_id publish_time_str w
     = (inl (HTTPException 404 ("Post with ID " +:+ pretty post_id +:+ " not found")),
        w)) ∧
  (∀ str post msg,
     configured (Some str) = true →
     db w !! post_id = Some post →
     fromisoformat env (Endpoints.replace_Z str) = inl (ValueError msg) →
     Endpoints.schedule_post env post_id (Some str) w
     = (inl (HTTPException 400 ("Invalid publish_time format: " +:+ msg)), w)).
Proof.
  split_and!.
  - intros str Hstr. unfold Endpoints.schedule_post. by rewrite Hstr.
  - intros str Hstr Hrow. unfold Endpoints.schedule_post. rewrite Hstr. simpl.
    unfold mbind, M_bind, bind, query_post. by rewrite Hrow.
  - intros str post msg Hstr Hrow Hparse.
    unfold Endpoints.schedule_post. rewrite Hstr. simpl.
    unfold mbind, M_bind, bind, query_post, try_except. rewrite Hrow. simpl.
    by rewrite Hparse.
Qed.

Lemma schedule_endpoint_rejects_before_writing_witness :
  Endpoints.schedule_post (Sample.parsing 0) 99 None Sample.mixed
  = (inl (HTTPException 400 "publish_time is required"), Sample.mixed) ∧
  Endpoints.schedule_post (Sample.parsing 0) 99 (Some "2026-01-01T00:00:00Z")
    Sample.mixed
  = (inl (HTTPException 404 "Post with ID 99 not found"), Sample.mixed) ∧
  Endpoints.schedule_post (Sample.parsing 0) 3 (Some "tomorrow") Sample.mixed
  = (inl (HTTPException 400 "Invalid publish_time format: Invalid isoformat string"),
     Sample.mixed) ∧
  (∃ body w', Endpoints.schedule_post (Sample.parsing 0) 3
                (Some "2026-01-01T00:00:00Z") Sample.mixed = (inr body, w') ∧
              (scheduled_time <$> db w' !! 3) = Some (Some 1000)).
Proof.
  split_and!.
  - apply (proj1 (schedule_endpoint_rejects_before_writing (Sample.parsing 0) 99
                    Sample.mixed) None eq_refl).
  - apply (proj1 (proj2 (schedule_endpoint_rejects_before_writing
                           (Sample.parsing 0) 99 Sample.mixed))
             (Some "2026-01-01T00:00:00Z") eq_refl eq_refl).
  - apply (proj2 (proj2 (schedule_endpoint_rejects_before_writing
                           (Sample.parsing 0) 3 Sample.mixed))
             "tomorrow" Scenario.draft "Invalid isoformat string"
             eq_refl eq_refl eq_refl).
  - eexists _, _. split; reflexivity.
Defined.

(** X18. Publishing now never reports success. For a post that does not
    exist the endpoint answers 404 and changes nothing. For a stored post
    that is not Published it answers 500 in every environment; no job is
    changed, and the only row written is that of the post, which is stored
    with status Approved, whatever its status was (Draft, Failed and
    Rejected included), unless the commit itself failed. *)
Theorem publish_now_never_succeeds (env : Env) (post_id : Z) (w : World) :
  (db w !! post_id = None →
   Endpoints.publish_post_now env post_id w
   = (inl (HTTPException 404 ("Post with ID " +:+ pretty post_id +:+ " not found")),
      w)) ∧
  (∀ post,
     db w !! post_id = Some post →
     status post ≠ PUBLISHED →
     ∃ detail w',
       Endpoints.publish_post_now env post_id w
       = (inl (HTTPException 500 detail), w') ∧
       jobs w' = jobs w ∧
       db w' = match commit_fails env with
               | None => <[id post := set_status APPROVED post]> (db w)
               | Some _ => db w
               end).
Proof.
  split.
  - intros Hrow.
    unfold Endpoints.publish_post_now, mbind, M_bind, bind, query_post.
    by rewrite Hrow.
  - intros post Hrow Hstatus.
    unfold Endpoints.publish_post_now, mbind, M_bind, bind, query_post.
    rewrite Hrow. simpl. rewrite bool_decide_eq_false_2 by done.
    unfold try_except, commit.
    destruct (commit_fails env) as [e|]; [by eexists _, _|].
    unfold Endpoints.with_new_scheduler. simpl. by eexists _, _.
Qed.

Lemma publish_now_never_succeeds_witness :
  ∃ detail w',
    Endpoints.publish_post_now (Scenario.healthy 0) 3 Sample.mixed
    = (inl (HTTPException 500 detail), w') ∧
    (status <$> db Sample.mixed !! 3) = Some DRAFT ∧
    (status <$> db w' !! 3) = Some APPROVED.
Proof.
  destruct (proj2 (publish_now_never_succeeds (Scenario.healthy 0) 3 Sample.mixed)
              Scenario.draft eq_refl)
    as (detail & w' & Hrun & _ & Hdb).
  { discriminate. }
  exists detail, w'. split; [exact Hrun|]. split; [reflexivity|].
  rewrite Hdb. reflexivity.
Defined.
